(** * DadosMeteorologicos: a shallow embedding of [dados_meteorologicos.py]

    The development follows the Python module function by function:
    the loader [carregar_dados], the range validator
    [validar_intervalo_datas], the display filter [visualizar_dados] and
    the two aggregations [mes_mais_chuvoso] and [media_temp_minima_mes].

    Python values are modelled as the interpreter has them:
    - [int] is unbounded, hence [Z];
    - [float] is an IEEE 754 binary64, hence Rocq's primitive [float];
    - a [datetime] whose time of day is midnight (the only ones this
      program builds) is the triple year, month, day;
    - a [dict] keeps its keys in insertion order, hence an association
      list with in-place update;
    - an exception is a value of [excecao], carried by the [result] monad. *)

From Stdlib Require Import ZArith List String Ascii Bool Lia.
From Stdlib Require Import Floats DecimalString DecimalZ DecimalPos.
Import ListNotations.

Local Open Scope Z_scope.

(** ** Exceptions and the error monad *)

Inductive excecao : Type :=
| FileNotFoundError
| StopIteration
| ValueError
| IndexError
| KeyError
| ZeroDivisionError
| OSError.

Inductive result (A : Type) : Type :=
| Ok (a : A)
| Raise (e : excecao).

Arguments Ok {A} a.
Arguments Raise {A} e.

Definition bind {A B : Type} (m : result A) (k : A -> result B) : result B :=
  match m with
  | Ok a => k a
  | Raise e => Raise e
  end.

Notation "x <- m ;; k" := (bind m (fun x => k))
  (at level 61, m at next level, right associativity).

(** ** Floats

    Python's [float] operations used by the program.  [x > y] is
    [PrimFloat.ltb y x]; a comparison with a NaN is false. *)

Definition float_zero : float := 0%float.

(** [sum(xs)] over a list of floats: the integer start value [0] becomes
    [0.0] at the first float and the items are added from left to right
    (the interpreter's float loop; from Python 3.12 on the loop carries a
    compensation term, which changes the rounding of the total only). *)
Definition py_sum (xs : list float) : float :=
  fold_left PrimFloat.add xs float_zero.

(** [len(xs)] used as the divisor of a float: the conversion of an [int]
    below [2^63] (every list length is) to a [float]. *)
Definition float_of_len (n : nat) : float :=
  PrimFloat.of_uint63 (Uint63.of_Z (Z.of_nat n)).

(** [x / len(xs)]: dividing by zero raises. *)
Definition py_div_len (x : float) (n : nat) : result float :=
  match n with
  | O => Raise ZeroDivisionError
  | S _ => Ok (PrimFloat.div x (float_of_len n))
  end.

Definition is_nan (x : float) : bool := negb (PrimFloat.eqb x x).

(** ** Dates *)

Record datetime : Type := mk_datetime { year : Z; month : Z; day : Z }.

Definition is_leap (y : Z) : bool :=
  (y mod 4 =? 0) && (negb (y mod 100 =? 0) || (y mod 400 =? 0)).

Definition days_in_month (y m : Z) : Z :=
  if m =? 2 then (if is_leap y then 29 else 28)
  else if (m =? 4) || (m =? 6) || (m =? 9) || (m =? 11) then 30
  else 31.

(** [datetime(y, m, d)]: the constructor checks its fields. *)
Definition datetime_new (y m d : Z) : result datetime :=
  if negb ((1 <=? y) && (y <=? 9999)) then Raise ValueError
  else if negb ((1 <=? m) && (m <=? 12)) then Raise ValueError
  else if negb ((1 <=? d) && (d <=? days_in_month y m)) then Raise ValueError
  else Ok (mk_datetime y m d).

(** Comparison of two datetimes: their fields in order. *)
Definition datetime_cmp (a b : datetime) : comparison :=
  match year a ?= year b with
  | Eq => match month a ?= month b with
          | Eq => day a ?= day b
          | c => c
          end
  | c => c
  end.

Definition datetime_le (a b : datetime) : bool :=
  match datetime_cmp a b with
  | Gt => false
  | _ => true
  end.

(** [calendar.month_name]: index 0 is the empty string.  The program never
    sets a locale, so [%B] gives the English names. *)
Definition month_names : list string :=
  [""; "January"; "February"; "March"; "April"; "May"; "June"; "July";
   "August"; "September"; "October"; "November"; "December"]%string.

Definition month_name (m : Z) : string :=
  if m <? 0 then ""%string else nth (Z.to_nat m) month_names ""%string.

(** [str(n)] for an integer, also what [%Y] prints. *)
Definition str_int (n : Z) : string := NilZero.string_of_int (Z.to_int n).

(** [d.strftime('%B/%Y')] *)
Definition strftime_B_Y (d : datetime) : string :=
  (month_name (month d) ++ "/" ++ str_int (year d))%string.

(** [f"{d.strftime('%B')}{d.year}"] *)
Definition chave_mes_ano (d : datetime) : string :=
  (month_name (month d) ++ str_int (year d))%string.

(** ** Dictionaries with string keys, in insertion order *)

Definition dict (V : Type) : Type := list (string * V).

Fixpoint dict_get {V : Type} (k : string) (d : dict V) : option V :=
  match d with
  | [] => None
  | (k', v) :: d' => if String.eqb k k' then Some v else dict_get k d'
  end.

(** [k in d] *)
Definition dict_mem {V : Type} (k : string) (d : dict V) : bool :=
  match dict_get k d with
  | Some _ => true
  | None => false
  end.

(** [d[k]] *)
Definition dict_getitem {V : Type} (k : string) (d : dict V) : result V :=
  match dict_get k d with
  | Some v => Ok v
  | None => Raise KeyError
  end.

(** [d[k] = v]: an existing key keeps its place, a new key goes last. *)
Fixpoint dict_set {V : Type} (k : string) (v : V) (d : dict V) : dict V :=
  match d with
  | [] => [(k, v)]
  | (k', v') :: d' =>
      if String.eqb k k' then (k', v) :: d' else (k', v') :: dict_set k v d'
  end.

Definition dict_keys {V : Type} (d : dict V) : list string := map fst d.

(** ** Records *)

Record registro : Type := mk_registro {
  data : datetime;
  precipitacao : float;
  temp_max : float;
  temp_min : float;
  umidade : float;
  vento : float
}.

(** ** [carregar_dados]

    The file is what [open] and [csv.reader] make of it: missing,
    unreadable (the exception met while reading), or a sequence of rows,
    each a list of column texts.  The two library parsers,
    [datetime.strptime(_, '%d/%m/%Y')] and [float(_)], are parameters of
    the section: the theorems about the loader hold whatever they accept. *)

Inductive arquivo : Type :=
| Inexistente
| Ilegivel (e : excecao)
| Conteudo (linhas : list (list string)).

(** [linha[i]] *)
Definition list_item (linha : list string) (i : nat) : result string :=
  match nth_error linha i with
  | Some s => Ok s
  | None => Raise IndexError
  end.

Section Carga.

Variable strptime : string -> result datetime.
Variable float_of_str : string -> result float.

(** The dictionary literal of lines 18-25: the six values are computed
    in the order they are written. *)
Definition analisar_linha (linha : list string) : result registro :=
  s0 <- list_item linha 0 ;; d <- strptime s0 ;;
  s1 <- list_item linha 1 ;; p <- float_of_str s1 ;;
  s2 <- list_item linha 2 ;; tmax <- float_of_str s2 ;;
  s3 <- list_item linha 3 ;; tmin <- float_of_str s3 ;;
  s4 <- list_item linha 4 ;; u <- float_of_str s4 ;;
  s5 <- list_item linha 5 ;; v <- float_of_str s5 ;;
  Ok (mk_registro d p tmax tmin u v).

Definition colunas_suficientes (linha : list string) : bool :=
  (6 <=? List.length linha)%nat.

(** The [for linha in leitor] loop; [dados] is the list built so far. *)
Fixpoint percorrer_linhas (leitor : list (list string)) (dados : list registro)
  : result (list registro) :=
  match leitor with
  | [] => Ok dados
  | linha :: resto =>
      if colunas_suficientes linha then
        r <- analisar_linha linha ;;
        percorrer_linhas resto (dados ++ [r])
      else percorrer_linhas resto dados
  end.

(** The body of the [try]: [next(leitor)] raises [StopIteration] on a
    file without rows. *)
Definition ler_arquivo (arq : arquivo) : result (list registro) :=
  match arq with
  | Inexistente => Raise FileNotFoundError
  | Ilegivel e => Raise e
  | Conteudo [] => Raise StopIteration
  | Conteudo (_ :: leitor) => percorrer_linhas leitor []
  end.

(** Both handlers return the empty list. *)
Definition carregar_dados (arq : arquivo) : list registro :=
  match ler_arquivo arq with
  | Ok dados => dados
  | Raise FileNotFoundError => []
  | Raise _ => []
  end.

(** A row whose date or one of whose five numbers is refused. *)
Definition campo_invalido (linha : list string) : Prop :=
  (exists s e, nth_error linha 0 = Some s /\ strptime s = Raise e) \/
  (exists i s e, (1 <= i <= 5)%nat /\ nth_error linha i = Some s /\
                 float_of_str s = Raise e).

End Carga.

(** *** Concrete parsers

    Executable instances of the two library parsers, for running the
    loader on concrete files. *)

Definition digit_val (c : ascii) : option Z :=
  let n := Z.of_N (N_of_ascii c) in
  if (48 <=? n) && (n <=? 57) then Some (n - 48) else None.

Definition is_slash (c : ascii) : bool := Ascii.eqb c "/"%char.

(** The directive [%d]: [3[0-1]|[1-2]\d|0[1-9]|[1-9]| [1-9]], then [/]. *)
Definition parse_d (s : list ascii) : option (Z * list ascii) :=
  match s with
  | c1 :: c2 :: c3 :: rest =>
      match digit_val c1, digit_val c2 with
      | Some a, Some b =>
          if is_slash c3 && (1 <=? 10 * a + b) && (10 * a + b <=? 31)
          then Some (10 * a + b, rest) else None
      | Some a, None =>
          if is_slash c2 && (1 <=? a) then Some (a, c3 :: rest) else None
      | None, Some b =>
          if Ascii.eqb c1 " "%char && is_slash c3 && (1 <=? b)
          then Some (b, rest) else None
      | None, None => None
      end
  | _ => None
  end.

(** The directive [%m]: [1[0-2]|0[1-9]|[1-9]], then [/]. *)
Definition parse_m (s : list ascii) : option (Z * list ascii) :=
  match s with
  | c1 :: c2 :: rest =>
      match digit_val c1, digit_val c2 with
      | Some a, Some b =>
          match rest with
          | c3 :: rest' =>
              if is_slash c3 && (1 <=? 10 * a + b) && (10 * a + b <=? 12)
              then Some (10 * a + b, rest') else None
          | [] => None
          end
      | Some a, None =>
          if is_slash c2 && (1 <=? a) then Some (a, rest) else None
      | _, _ => None
      end
  | _ => None
  end.

(** The directive [%Y]: four digits, and nothing after them. *)
Definition parse_Y (s : list ascii) : option Z :=
  match s with
  | [c1; c2; c3; c4] =>
      match digit_val c1, digit_val c2, digit_val c3, digit_val c4 with
      | Some a, Some b, Some c, Some d => Some (1000 * a + 100 * b + 10 * c + d)
      | _, _, _, _ => None
      end
  | _ => None
  end.

(** [datetime.strptime(s, '%d/%m/%Y')] on ASCII text. *)
Definition strptime_dmY (s : string) : result datetime :=
  match parse_d (list_ascii_of_string s) with
  | Some (d, s1) =>
      match parse_m s1 with
      | Some (m, s2) =>
          match parse_Y s2 with
          | Some y => datetime_new y m d
          | None => Raise ValueError
          end
      | None => Raise ValueError
      end
  | None => Raise ValueError
  end.

(** Digits read as a natural number, with their count. *)
Fixpoint read_digits (s : list ascii) (acc : Z) (n : nat)
  : Z * nat * list ascii :=
  match s with
  | c :: rest =>
      match digit_val c with
      | Some v => read_digits rest (10 * acc + v) (S n)
      | None => (acc, n, s)
      end
  | [] => (acc, n, s)
  end.

Definition float_of_Z (z : Z) : float := PrimFloat.of_uint63 (Uint63.of_Z z).

(** [float(s)] on plain decimal literals, [[+-]digits[.digits]] with at
    most fifteen digits: there the mantissa and the power of ten are
    exact floats and their quotient is the correctly rounded value that
    [float] returns.  Texts outside this fragment are refused here. *)
Definition float_decimal (s : string) : result float :=
  let cs := list_ascii_of_string s in
  let '(neg, cs) :=
    match cs with
    | c :: rest =>
        if Ascii.eqb c "-"%char then (true, rest)
        else if Ascii.eqb c "+"%char then (false, rest)
        else (false, cs)
    | [] => (false, cs)
    end in
  let '(ip, n1, cs1) := read_digits cs 0 O in
  let '(m, n2, k, cs2) :=
    match cs1 with
    | c :: rest =>
        if Ascii.eqb c "."%char
        then let '(m, n2, cs2) := read_digits rest ip O in (m, n2, n2, cs2)
        else (ip, O, O, cs1)
    | [] => (ip, O, O, cs1)
    end in
  match cs2 with
  | [] =>
      if ((1 <=? n1 + n2)%nat && (n1 + n2 <=? 15)%nat)%bool then
        let x := PrimFloat.div (float_of_Z m) (float_of_Z (10 ^ Z.of_nat k)) in
        Ok (if neg then PrimFloat.opp x else x)
      else Raise ValueError
  | _ :: _ => Raise ValueError
  end.

(** ** [validar_intervalo_datas] *)

Definition validar_intervalo_datas (dados : list registro)
    (mes_inicio ano_inicio mes_fim ano_fim : Z) : bool :=
  if negb ((1 <=? mes_inicio) && (mes_inicio <=? 12) &&
           ((1 <=? mes_fim) && (mes_fim <=? 12))) then false
  else if negb ((1961 <=? ano_inicio) && (ano_inicio <=? 2016) &&
                ((1961 <=? ano_fim) && (ano_fim <=? 2016))) then false
  else if (ano_inicio >? ano_fim) ||
          ((ano_inicio =? ano_fim) && (mes_inicio >? mes_fim)) then false
  else true.

(** ** [visualizar_dados]

    The function prints; its model returns what is printed, one item per
    [print].  A record line carries the date and the numbers of the view,
    in the order they are printed; turning them into text is left out. *)

Inductive saida : Type :=
| AvisoIntervaloInvalido
| TituloPeriodo
| Cabecalho (colunas : list string)
| Regua (n : nat)
| Linha (d : datetime) (valores : list float).

Definition cabecalho (tipo_visualizacao : Z) : list saida :=
  if tipo_visualizacao =? 1 then
    [Cabecalho ["Data"; "Precipitação"; "Temp. Máx"; "Temp. Mín"; "Umidade"; "Vento"]%string;
     Regua 70]
  else if tipo_visualizacao =? 2 then
    [Cabecalho ["Data"; "Precipitação"]%string; Regua 25]
  else if tipo_visualizacao =? 3 then
    [Cabecalho ["Data"; "Temp. Máx"; "Temp. Mín"]%string; Regua 40]
  else if tipo_visualizacao =? 4 then
    [Cabecalho ["Data"; "Umidade"; "Vento"]%string; Regua 30]
  else [].

Definition linha_registro (tipo_visualizacao : Z) (r : registro) : list saida :=
  if tipo_visualizacao =? 1 then
    [Linha (data r) [precipitacao r; temp_max r; temp_min r; umidade r; vento r]]
  else if tipo_visualizacao =? 2 then [Linha (data r) [precipitacao r]]
  else if tipo_visualizacao =? 3 then [Linha (data r) [temp_max r; temp_min r]]
  else if tipo_visualizacao =? 4 then [Linha (data r) [umidade r; vento r]]
  else [].

(** The test of line 70: [data_inicio <= registro['data'] <= data_fim]. *)
Definition no_intervalo (data_inicio data_fim : datetime) (r : registro) : bool :=
  datetime_le data_inicio (data r) && datetime_le (data r) data_fim.

(** The [for registro in dados] loop of lines 69-78. *)
Fixpoint imprimir_registros (tipo_visualizacao : Z)
    (data_inicio data_fim : datetime) (dados : list registro) : list saida :=
  match dados with
  | [] => []
  | r :: resto =>
      (if no_intervalo data_inicio data_fim r
       then linha_registro tipo_visualizacao r else []) ++
      imprimir_registros tipo_visualizacao data_inicio data_fim resto
  end.

Definition visualizar_dados (dados : list registro)
    (mes_inicio ano_inicio mes_fim ano_fim tipo_visualizacao : Z)
    : result (list saida) :=
  if negb (validar_intervalo_datas dados mes_inicio ano_inicio mes_fim ano_fim)
  then Ok [AvisoIntervaloInvalido]
  else
    data_inicio <- datetime_new ano_inicio mes_inicio 1 ;;
    data_fim <- datetime_new ano_fim mes_fim 1 ;;
    Ok (TituloPeriodo :: cabecalho tipo_visualizacao ++
        imprimir_registros tipo_visualizacao data_inicio data_fim dados).

(** ** [mes_mais_chuvoso] *)

(** The grouping loop of lines 84-88 over the dictionary built so far. *)
Fixpoint acumular_precipitacao (dados : list registro)
    (precipitacao_por_mes : dict float) : result (dict float) :=
  match dados with
  | [] => Ok precipitacao_por_mes
  | r :: resto =>
      let mes_ano := strftime_B_Y (data r) in
      let d1 := if negb (dict_mem mes_ano precipitacao_por_mes)
                then dict_set mes_ano float_zero precipitacao_por_mes
                else precipitacao_por_mes in
      v <- dict_getitem mes_ano d1 ;;
      acumular_precipitacao resto
        (dict_set mes_ano (PrimFloat.add v (precipitacao r)) d1)
  end.

(** [max(d.items(), key=lambda x: x[1])]: the first item is the candidate
    and a later item replaces it when its value is greater; no item at
    all raises [ValueError]. *)
Definition maior (m x : string * float) : string * float :=
  if PrimFloat.ltb (snd m) (snd x) then x else m.

Definition py_max_valor (items : list (string * float))
  : result (string * float) :=
  match items with
  | [] => Raise ValueError
  | primeiro :: resto => Ok (fold_left maior resto primeiro)
  end.

Definition mes_mais_chuvoso (dados : list registro) : result (string * float) :=
  precipitacao_por_mes <- acumular_precipitacao dados [] ;;
  py_max_valor precipitacao_por_mes.

(** ** [media_temp_minima_mes] *)

Definition na_faixa (mes : Z) (r : registro) : bool :=
  (2006 <=? year (data r)) && (year (data r) <=? 2016) &&
  (month (data r) =? mes).

(** The grouping loop of lines 99-104. *)
Fixpoint agrupar_temp_min (dados : list registro) (mes : Z)
    (medias_por_ano : dict (list float)) : result (dict (list float)) :=
  match dados with
  | [] => Ok medias_por_ano
  | r :: resto =>
      if na_faixa mes r then
        let chave := chave_mes_ano (data r) in
        let d1 := if negb (dict_mem chave medias_por_ano)
                  then dict_set chave [] medias_por_ano
                  else medias_por_ano in
        temps <- dict_getitem chave d1 ;;
        agrupar_temp_min resto mes (dict_set chave (temps ++ [temp_min r]) d1)
      else agrupar_temp_min resto mes medias_por_ano
  end.

(** The loop of lines 107-108: every key, in order, gets the mean of its
    list in place of the list. *)
Fixpoint calcular_medias (medias_por_ano : dict (list float))
  : result (dict float) :=
  match medias_por_ano with
  | [] => Ok []
  | (chave, temps) :: resto =>
      m <- py_div_len (py_sum temps) (List.length temps) ;;
      ms <- calcular_medias resto ;;
      Ok ((chave, m) :: ms)
  end.

Definition media_temp_minima_mes (dados : list registro) (mes : Z)
  : result (dict float) :=
  if negb ((1 <=? mes) && (mes <=? 12)) then Ok []
  else
    medias_por_ano <- agrupar_temp_min dados mes [] ;;
    calcular_medias medias_por_ano.

(** ** Specification-side definitions

    What the aggregations and the filter are meant to compute, written
    without the loops: the theorems below compare the code with them. *)

(** The conditions under which the spec says a range is refused. *)
Definition intervalo_recusado (m1 y1 m2 y2 : Z) : Prop :=
  (m1 < 1 \/ 12 < m1 \/ m2 < 1 \/ 12 < m2) \/
  (y1 < 1961 \/ 2016 < y1 \/ y2 < 1961 \/ 2016 < y2) \/
  y1 > y2 \/ (y1 = y2 /\ m1 > m2).

(** Chronological order on dates, field by field. *)
Definition antes_ou_igual (a b : datetime) : Prop :=
  year a < year b \/
  (year a = year b /\
   (month a < month b \/ (month a = month b /\ day a <= day b))).

Definition primeiro_dia (ano mes : Z) : datetime := mk_datetime ano mes 1.

(** The records of one month/year key, and their accumulated rain. *)
Definition registros_da_chave (chave : string) (dados : list registro)
  : list registro :=
  filter (fun r => String.eqb (strftime_B_Y (data r)) chave) dados.

Definition precipitacao_total (chave : string) (dados : list registro) : float :=
  py_sum (map precipitacao (registros_da_chave chave dados)).

(** The records of month [mes] in year [ano], and the mean of their
    minimum temperatures. *)
Definition registros_do_ano (mes ano : Z) (dados : list registro)
  : list registro :=
  filter (fun r => (month (data r) =? mes) && (year (data r) =? ano)) dados.

Definition media_lista (temps : list float) : float :=
  PrimFloat.div (py_sum temps) (float_of_len (List.length temps)).

Definition media_do_ano (mes ano : Z) (dados : list registro) : float :=
  media_lista (map temp_min (registros_do_ano mes ano dados)).

(** The key under which the mean of year [ano] is stored. *)
Definition chave_do_ano (mes ano : Z) : string :=
  (month_name mes ++ str_int ano)%string.

(** Grouping in general: [d[k] = f(d.get(k, v0), r)] for every record
    that passes [cond], with [k] the key of the record. *)
Section Agrupamento.

Context {V : Type}.
Variable chave_de : registro -> string.
Variable cond : registro -> bool.
Variable v0 : V.
Variable f : V -> registro -> V.

Definition valor_ou_inicial (o : option V) : V :=
  match o with Some v => v | None => v0 end.

Definition dict_upsert (r : registro) (d : dict V) : dict V :=
  let k := chave_de r in
  dict_set k (f (valor_ou_inicial (dict_get k d)) r) d.

Fixpoint agrupar_por (dados : list registro) (d : dict V) : dict V :=
  match dados with
  | [] => d
  | r :: resto =>
      agrupar_por resto (if cond r then dict_upsert r d else d)
  end.

Definition selecionados (k : string) (dados : list registro) : list registro :=
  filter (fun r => cond r && String.eqb (chave_de r) k) dados.

End Agrupamento.

(** The two groupings of the program as instances: the key and the
    update of the rain totals, the key and the update of the lists of
    minimum temperatures. *)
Definition chave_chuva (r : registro) : string := strftime_B_Y (data r).

Definition soma_chuva (v : float) (r : registro) : float :=
  PrimFloat.add v (precipitacao r).

Definition chave_temp (r : registro) : string := chave_mes_ano (data r).

Definition junta_temp (temps : list float) (r : registro) : list float :=
  temps ++ [temp_min r].

(** ** [plotar_media_temp_minima]

    The two lists handed to the plotting library; the drawing itself is
    one event of the session below. *)

(** [s[-n:]]: the last [n] characters, or all of [s] when it is shorter. *)
Definition ultimos (n : nat) (s : string) : string :=
  String.substring (String.length s - n) n s.

Definition dict_values {V : Type} (d : dict V) : list V := map snd d.

(** Line 114: [[chave[-4:] for chave in medias.keys()]] *)
Definition anos_do_grafico (medias : dict float) : list string :=
  map (ultimos 4) (dict_keys medias).

(** Line 115: [list(medias.values())] *)
Definition temperaturas_do_grafico (medias : dict float) : list float :=
  dict_values medias.

(** ** [main]

    The session is a function of the file and of the lines typed at the
    prompts; it gives what is printed, one event per [print] or group of
    consecutive [print]s, and how the function ends.  [input] prints its
    prompt and raises [EOFError] when no line is left; [int(_)] is a
    parameter, like the two parsers of the loader. *)

Inductive pergunta : Type :=
| PerguntaOpcao
| PerguntaMesInicial
| PerguntaAnoInicial
| PerguntaMesFinal
| PerguntaAnoFinal
| PerguntaTipo
| PerguntaMes.

(** The events, with the lines that print them: the two messages of the
    loader (27, 30); the menu (132-136); a prompt of [input]; the menu of
    views (147-151); a line printed by [visualizar_dados]; the messages
    of lines 157 and 159; the two lines of the wettest month (163-164);
    the title (172), one line for each year (174) and the overall mean
    (177) of the trend; the call of [plotar_media_temp_minima] (179) with
    the two lists it draws; the messages of lines 181, 183, 186 and 190. *)
Inductive evento : Type :=
| ErroArquivoNaoEncontrado
| ErroAoLer (e : excecao)
| MenuPrincipal
| Pergunta (p : pergunta)
| MenuVisualizacao
| Impresso (s : saida)
| OpcaoVisualizacaoInvalida
| ValoresNumericosInvalidos
| MesMaisChuvoso (mes : string) (precipitacao : float)
| TituloMedias
| MediaDoAno (chave : string) (media : float)
| MediaGeral (media_geral : float)
| Grafico (anos : list string) (temperaturas : list float) (mes : Z)
| MesInvalidoOuSemDados
| NumeroInvalido
| ProgramaEncerrado
| OpcaoInvalida.

(** How [main] ends: it returns, or an exception leaves it; the
    [EOFError] of [input] is kept apart from the exceptions of the
    functions modelled above. *)
Inductive fim : Type :=
| Retornou
| FimDaEntrada
| Excecao (e : excecao).

Definition sessao : Type := (list evento * fim)%type.

Definition prefixar (eventos : list evento) (s : sessao) : sessao :=
  (eventos ++ fst s, snd s).

(** [input(p)]: the prompt is printed, then a line is read. *)
Definition perguntar (p : pergunta) (entrada : list string)
    (k : string -> list string -> sessao) : sessao :=
  prefixar [Pergunta p]
    match entrada with
    | [] => ([], FimDaEntrada)
    | s :: resto => k s resto
    end.

(** The handler [except ValueError] of lines 158 and 182: it prints its
    message and the loop goes on; another exception leaves [main]. *)
Definition tratar (e : excecao) (mensagem : evento) (continua : sessao)
  : sessao :=
  match e with
  | ValueError => prefixar [mensagem] continua
  | _ => ([], Excecao e)
  end.

(** Lines 154-157, inside the [try] of option 1. *)
Definition exibir_periodo (dados : list registro)
    (mes_inicio ano_inicio mes_fim ano_fim tipo_visualizacao : Z)
    (continua : sessao) : sessao :=
  if (1 <=? tipo_visualizacao) && (tipo_visualizacao <=? 4) then
    match visualizar_dados dados mes_inicio ano_inicio mes_fim ano_fim
            tipo_visualizacao with
    | Ok saidas => prefixar (map Impresso saidas) continua
    | Raise e => tratar e ValoresNumericosInvalidos continua
    end
  else prefixar [OpcaoVisualizacaoInvalida] continua.

(** Lines 162-164: option 2 has no handler. *)
Definition relatorio_chuva (dados : list registro) (continua : sessao)
  : sessao :=
  match mes_mais_chuvoso dados with
  | Ok (mes, precipitacao) =>
      prefixar [MesMaisChuvoso mes precipitacao] continua
  | Raise e => ([], Excecao e)
  end.

(** Lines 169-181, inside the [try] of option 3. *)
Definition relatorio_medias (dados : list registro) (mes : Z)
    (continua : sessao) : sessao :=
  match media_temp_minima_mes dados mes with
  | Raise e => tratar e NumeroInvalido continua
  | Ok [] => prefixar [MesInvalidoOuSemDados] continua
  | Ok ((_ :: _) as medias) =>
      prefixar
        (TituloMedias ::
         map (fun kv => MediaDoAno (fst kv) (snd kv)) medias)
        match py_div_len (py_sum (dict_values medias)) (List.length medias) with
        | Raise e => tratar e NumeroInvalido continua
        | Ok media_geral =>
            prefixar
              [MediaGeral media_geral;
               Grafico (anos_do_grafico medias)
                       (temperaturas_do_grafico medias) mes]
              continua
        end
  end.

Section Principal.

Variable strptime : string -> result datetime.
Variable float_of_str : string -> result float.
Variable int_of_str : string -> result Z.

(** The [while True] loop of lines 131-190. *)
Fixpoint laco_principal (dados : list registro) (entrada : list string)
  : sessao :=
  prefixar [MenuPrincipal]
    (perguntar PerguntaOpcao entrada (fun opcao e1 =>
       if String.eqb opcao "1" then
         perguntar PerguntaMesInicial e1 (fun s1 e2 =>
         match int_of_str s1 with
         | Raise e => tratar e ValoresNumericosInvalidos (laco_principal dados e2)
         | Ok mes_inicio =>
         perguntar PerguntaAnoInicial e2 (fun s2 e3 =>
         match int_of_str s2 with
         | Raise e => tratar e ValoresNumericosInvalidos (laco_principal dados e3)
         | Ok ano_inicio =>
         perguntar PerguntaMesFinal e3 (fun s3 e4 =>
         match int_of_str s3 with
         | Raise e => tratar e ValoresNumericosInvalidos (laco_principal dados e4)
         | Ok mes_fim =>
         perguntar PerguntaAnoFinal e4 (fun s4 e5 =>
         match int_of_str s4 with
         | Raise e => tratar e ValoresNumericosInvalidos (laco_principal dados e5)
         | Ok ano_fim =>
         prefixar [MenuVisualizacao]
         (perguntar PerguntaTipo e5 (fun s5 e6 =>
         match int_of_str s5 with
         | Raise e => tratar e ValoresNumericosInvalidos (laco_principal dados e6)
         | Ok tipo_visualizacao =>
             exibir_periodo dados mes_inicio ano_inicio mes_fim ano_fim
               tipo_visualizacao (laco_principal dados e6)
         end))
         end)
         end)
         end)
         end)
       else if String.eqb opcao "2" then
         relatorio_chuva dados (laco_principal dados e1)
       else if String.eqb opcao "3" then
         perguntar PerguntaMes e1 (fun s1 e2 =>
         match int_of_str s1 with
         | Raise e => tratar e NumeroInvalido (laco_principal dados e2)
         | Ok mes => relatorio_medias dados mes (laco_principal dados e2)
         end)
       else if String.eqb opcao "4" then ([ProgramaEncerrado], Retornou)
       else prefixar [OpcaoInvalida] (laco_principal dados e1))).

(** What [carregar_dados] prints: lines 27 and 30. *)
Definition mensagem_carga (arq : arquivo) : list evento :=
  match ler_arquivo strptime float_of_str arq with
  | Ok _ => []
  | Raise FileNotFoundError => [ErroArquivoNaoEncontrado]
  | Raise e => [ErroAoLer e]
  end.

Definition main (arq : arquivo) (entrada : list string) : sessao :=
  let dados := carregar_dados strptime float_of_str arq in
  prefixar (mensagem_carga arq)
    match dados with
    | [] => ([], Retornou)
    | _ :: _ => laco_principal dados entrada
    end.

End Principal.

(** ** Reading the display back *)

(** The dates of the record lines of a display, in the order printed. *)
Definition datas_das_linhas (saidas : list saida) : list datetime :=
  flat_map (fun s => match s with Linha d _ => [d] | _ => [] end) saidas.

(** The number of values that a record line is expected to carry in each
    of the four views. *)
Definition numero_de_valores (tipo_visualizacao : Z) : nat :=
  if tipo_visualizacao =? 1 then 5
  else if tipo_visualizacao =? 2 then 1
  else 2.

Definition linha_bem_formada (tipo_visualizacao : Z) (s : saida) : Prop :=
  match s with
  | Linha _ valores => List.length valores = numero_de_valores tipo_visualizacao
  | _ => True
  end.

(** ** Order of the keys of a dictionary *)

(** The keys of a list in the order in which each one first occurs. *)
Definition acrescentar_chave (chaves : list string) (k : string) : list string :=
  if existsb (String.eqb k) chaves then chaves else chaves ++ [k].

Definition primeiras_ocorrencias (l : list string) : list string :=
  fold_left acrescentar_chave l [].

(** The years of the band of line 100. *)
Definition anos_da_faixa : list Z :=
  [2006; 2007; 2008; 2009; 2010; 2011; 2012; 2013; 2014; 2015; 2016].

(** ** Reading a session back *)

(** [int(s)] on plain decimal literals, [[+-]digits]; other texts are
    refused here. *)
Definition int_decimal (s : string) : result Z :=
  let cs := list_ascii_of_string s in
  let '(neg, cs) :=
    match cs with
    | c :: rest =>
        if Ascii.eqb c "-"%char then (true, rest)
        else if Ascii.eqb c "+"%char then (false, rest)
        else (false, cs)
    | [] => (false, cs)
    end in
  let '(v, n, resto) := read_digits cs 0 O in
  match resto, n with
  | [], S _ => Ok (if neg then - v else v)
  | _, _ => Raise ValueError
  end.

(** No exception of the functions of the program leaves the session. *)
Definition sem_excecao (s : sessao) : Prop :=
  forall e, snd s <> Excecao e.

(** A chart is drawn for a month of the calendar, with one label for
    each bar and at least one bar. *)
Definition grafico_bem_formado (ev : evento) : Prop :=
  match ev with
  | Grafico anos temperaturas mes =>
      1 <= mes <= 12 /\ temperaturas <> [] /\
      List.length anos = List.length temperaturas
  | _ => True
  end.

(** A session that returns has printed the farewell of option 4 last. *)
Definition encerra_pela_opcao_4 (s : sessao) : Prop :=
  snd s = Retornou -> exists eventos, fst s = eventos ++ [ProgramaEncerrado].

(** ** Sample data *)

(** A file of three rows: the header, a well-formed row and a row whose
    date is not a date. *)
Definition linha_boa : list string :=
  ["15/02/2015"; "1.5"; "30.0"; "20.0"; "80.0"; "2.5"]%string.

Definition linha_ruim : list string :=
  ["xx/02/2015"; "0.0"; "29.0"; "19.0"; "75.0"; "3.0"]%string.

Definition linha_cabecalho : list string :=
  ["data"; "precip"; "maxima"; "minima"; "um_relativa"; "vel_vento"]%string.

Definition registro_bom : registro :=
  mk_registro (mk_datetime 2015 2 15) 1.5 30 20 80 2.5.

(** Three records around the range January 2015 to March 2015, and one
    on the second day of its end month. *)
Definition reg_15_fev : registro :=
  mk_registro (mk_datetime 2015 2 15) 1.5 30 20 80 2.5.

Definition reg_01_mar : registro :=
  mk_registro (mk_datetime 2015 3 1) 0 31 21 70 3.

Definition reg_02_mar : registro :=
  mk_registro (mk_datetime 2015 3 2) 4 28 19 85 1.5.

Definition reg_01_abr : registro :=
  mk_registro (mk_datetime 2015 4 1) 12.5 27 18 90 2.

(** One January 2010 record with 5.0 of rain, one of February 2010 with
    20.0. *)
Definition reg_jan_2010 : registro :=
  mk_registro (mk_datetime 2010 1 10) 5 29 18 60 2.

Definition reg_fev_2010 : registro :=
  mk_registro (mk_datetime 2010 2 20) 20 33 22 75 1.

(** Two January 2007 records with minimum temperatures 10.0 and 14.0,
    among records of other months and of years outside 2006..2016. *)
Definition reg_jan_2007_a : registro :=
  mk_registro (mk_datetime 2007 1 3) 0 28 10 55 3.

Definition reg_jan_2007_b : registro :=
  mk_registro (mk_datetime 2007 1 17) 2.5 30 14 65 2.

Definition reg_jan_1999 : registro :=
  mk_registro (mk_datetime 1999 1 5) 1 27 16 70 4.

Definition dados_jan_2007 : list registro :=
  [reg_jan_1999; reg_jan_2007_a; reg_fev_2010; reg_jan_2007_b; reg_15_fev].

(** A session on a file of one record: a display, the wettest month, a
    month that is not a number, the trend of a refused month, an option
    that does not exist, and the exit. *)
Definition arquivo_de_uma_linha : arquivo :=
  Conteudo [linha_cabecalho; linha_boa].

Definition entrada_exemplo : list string :=
  ["1"; "2"; "2015"; "2"; "2015"; "1"; "2"; "3"; "abc"; "3"; "13"; "9"; "4";
   "1"]%string.

(** ** Proof automation *)

(** Case analysis on every comparison of integers and positives in sight. *)
Ltac cmp_cases :=
  repeat match goal with
         | H : context [Pos.compare_cont Eq ?a ?b] |- _ =>
             change (Pos.compare_cont Eq a b) with (Pos.compare a b) in H
         | |- context [Pos.compare_cont Eq ?a ?b] =>
             change (Pos.compare_cont Eq a b) with (Pos.compare a b)
         end;
  repeat match goal with
         | H : context [Z.compare ?a ?b] |- _ =>
             destruct (Z.compare_spec a b); simpl in H
         | H : context [Pos.compare ?a ?b] |- _ =>
             destruct (Pos.compare_spec a b); simpl in H
         | |- context [Z.compare ?a ?b] =>
             destruct (Z.compare_spec a b); simpl
         | |- context [Pos.compare ?a ?b] =>
             destruct (Pos.compare_spec a b); simpl
         end;
  try discriminate; try reflexivity; try lia.

(** Two months with the same total of rain, March 2011 first. *)
Definition reg_mar_2011 : registro :=
  mk_registro (mk_datetime 2011 3 8) 7.5 30 21 70 2.

Definition reg_abr_2011 : registro :=
  mk_registro (mk_datetime 2011 4 9) 7.5 29 20 72 3.

(** * Properties *)

(** ** The runtime model *)

Lemma bind_ok {A B : Type} (m : result A) (k : A -> result B) (b : B) :
  bind m k = Ok b -> exists a, m = Ok a /\ k a = Ok b.
Proof. destruct m as [a|e]; simpl; intros H; [eauto | discriminate]. Qed.

Lemma datetime_le_iff (a b : datetime) :
  datetime_le a b = true <-> antes_ou_igual a b.
Proof.
  unfold datetime_le, datetime_cmp, antes_ou_igual.
  destruct (Z.compare_spec (year a) (year b)) as [Hy|Hy|Hy];
    [ destruct (Z.compare_spec (month a) (month b)) as [Hm|Hm|Hm];
      [ destruct (Z.compare_spec (day a) (day b)) as [Hd|Hd|Hd] | | ] | | ];
    split; intros H; try reflexivity; try discriminate; lia.
Qed.

Lemma datetime_new_primeiro_dia (ano mes : Z) :
  1 <= ano <= 9999 -> 1 <= mes <= 12 ->
  datetime_new ano mes 1 = Ok (primeiro_dia ano mes).
Proof.
  intros Ha Hm. unfold datetime_new, primeiro_dia.
  replace ((1 <=? ano) && (ano <=? 9999)) with true
    by (symmetry; apply andb_true_intro; split; apply Z.leb_le; lia).
  replace ((1 <=? mes) && (mes <=? 12)) with true
    by (symmetry; apply andb_true_intro; split; apply Z.leb_le; lia).
  replace (1 <=? days_in_month ano mes) with true; [reflexivity|].
  symmetry; apply Z.leb_le. unfold days_in_month.
  destruct (mes =? 2); [destruct (is_leap ano); lia|].
  destruct ((mes =? 4) || (mes =? 6) || (mes =? 9) || (mes =? 11)); lia.
Qed.

(** ** The range validator *)

Lemma validar_true_iff (dados : list registro) (m1 y1 m2 y2 : Z) :
  validar_intervalo_datas dados m1 y1 m2 y2 = true <->
  (1 <= m1 <= 12 /\ 1 <= m2 <= 12) /\
  (1961 <= y1 <= 2016 /\ 1961 <= y2 <= 2016) /\
  (y1 < y2 \/ (y1 = y2 /\ m1 <= m2)).
Proof.
  unfold validar_intervalo_datas. rewrite !Z.gtb_ltb.
  destruct (Z.leb_spec 1 m1), (Z.leb_spec m1 12), (Z.leb_spec 1 m2),
    (Z.leb_spec m2 12); simpl;
    try (split; [discriminate | lia]).
  destruct (Z.leb_spec 1961 y1), (Z.leb_spec y1 2016), (Z.leb_spec 1961 y2),
    (Z.leb_spec y2 2016); simpl;
    try (split; [discriminate | lia]).
  destruct (Z.ltb_spec y2 y1); simpl; [split; [discriminate | lia]|].
  destruct (Z.eqb_spec y1 y2), (Z.ltb_spec m2 m1); simpl;
    (split; intros Hv; try discriminate; try reflexivity); lia.
Qed.

(** C6. For all integers m1, y1, m2, y2 the validator answers [false]
    exactly when a month is outside 1..12, a year is outside 1961..2016,
    the start year is after the end year, or the years are equal and the
    start month is after the end month; in every other case it answers
    [true].  It is a total function to [bool]: no call raises. *)
Theorem validar_intervalo_datas_spec :
  forall (dados : list registro) (m1 y1 m2 y2 : Z),
    (validar_intervalo_datas dados m1 y1 m2 y2 = false <->
     intervalo_recusado m1 y1 m2 y2) /\
    (validar_intervalo_datas dados m1 y1 m2 y2 = true <->
     ~ intervalo_recusado m1 y1 m2 y2).
Proof.
  intros dados m1 y1 m2 y2.
  pose proof (validar_true_iff dados m1 y1 m2 y2) as Ht.
  unfold intervalo_recusado.
  destruct (validar_intervalo_datas dados m1 y1 m2 y2).
  - assert (Hv : (1 <= m1 <= 12 /\ 1 <= m2 <= 12) /\
                 (1961 <= y1 <= 2016 /\ 1961 <= y2 <= 2016) /\
                 (y1 < y2 \/ y1 = y2 /\ m1 <= m2)) by (apply Ht; reflexivity).
    split; split; intros H; try discriminate; try reflexivity; lia.
  - assert (Hv : ~ ((1 <= m1 <= 12 /\ 1 <= m2 <= 12) /\
                    (1961 <= y1 <= 2016 /\ 1961 <= y2 <= 2016) /\
                    (y1 < y2 \/ y1 = y2 /\ m1 <= m2)))
      by (intros H; apply Ht in H; discriminate).
    split; split; intros H; try discriminate; try reflexivity.
    + lia.
    + exfalso. apply H. lia.
Qed.

(** C10. The validator never looks at the records: two collections give
    the same answer for the same bounds, and a range is accepted even
    when the collection holds no record at all. *)
Theorem validar_intervalo_datas_independente :
  forall (d1 d2 : list registro) (m1 y1 m2 y2 : Z),
    validar_intervalo_datas d1 m1 y1 m2 y2 =
    validar_intervalo_datas d2 m1 y1 m2 y2 /\
    validar_intervalo_datas [] 1 1961 12 2016 = true.
Proof. intros; split; reflexivity. Qed.

(** ** The loader *)

Section CargaProps.

Variable strptime : string -> result datetime.
Variable float_of_str : string -> result float.

Local Abbreviation analisar := (analisar_linha strptime float_of_str).
Local Abbreviation percorrer := (percorrer_linhas strptime float_of_str).

(** The loop returns the records it was given followed by one record
    per row of six or more columns, as long as no such row is refused. *)
Lemma percorrer_linhas_ok (leitor : list (list string)) :
  forall acc dados,
    percorrer leitor acc = Ok dados ->
    map Ok dados =
    map Ok acc ++ map analisar (filter colunas_suficientes leitor).
Proof.
  induction leitor as [|linha resto IH]; intros acc dados H; simpl in *.
  - injection H as <-. now rewrite app_nil_r.
  - destruct (colunas_suficientes linha).
    + apply bind_ok in H as (r & Hr & H).
      apply IH in H. rewrite H, map_app, <- app_assoc. simpl.
      now rewrite Hr.
    + now apply IH.
Qed.

Lemma filter_length_le {A : Type} (p : A -> bool) (l : list A) :
  (List.length (filter p l) <= List.length l)%nat.
Proof.
  induction l as [|x l IH]; simpl; [lia|].
  destruct (p x); simpl; lia.
Qed.

(** A refused row of six or more columns stops the loop with an
    exception, wherever it stands. *)
Lemma percorrer_linhas_raise (antes depois : list (list string))
    (linha : list string) (e : excecao) :
  colunas_suficientes linha = true ->
  analisar linha = Raise e ->
  forall acc, exists e', percorrer (antes ++ linha :: depois) acc = Raise e'.
Proof.
  intros Hc Hr. induction antes as [|l antes IH]; intros acc; simpl.
  - rewrite Hc, Hr. simpl. eauto.
  - destruct (colunas_suficientes l); [|apply IH].
    destruct (analisar l) as [r|e1]; simpl; [apply IH | eauto].
Qed.

Lemma campo_invalido_raise (linha : list string) :
  colunas_suficientes linha = true ->
  campo_invalido strptime float_of_str linha ->
  exists e, analisar linha = Raise e.
Proof.
  unfold colunas_suficientes. intros Hc Hbad.
  apply Nat.leb_le in Hc.
  destruct linha as [|c0 [|c1 [|c2 [|c3 [|c4 [|c5 resto]]]]]];
    simpl in Hc; try lia.
  unfold analisar_linha, list_item; simpl.
  destruct Hbad as [(s & e & Hs & He) | (i & s & e & Hi & Hs & He)].
  - simpl in Hs. injection Hs as ->. rewrite He. simpl. eauto.
  - destruct (strptime c0); simpl; [|eauto].
    destruct i as [|[|[|[|[|[|i]]]]]]; try lia; simpl in Hs;
      injection Hs as ->;
      repeat match goal with
             | |- context [float_of_str ?c] =>
                 first [ rewrite He
                       | destruct (float_of_str c) eqn:?; simpl; [|eauto] ]
             end; simpl; eauto.
Qed.

(** C8. When the load goes through (the body of the [try] raises
    nothing), the file has a header row, the records are the parsed
    rows of six or more columns of the rest of the file, in the order
    of the rows, a row of fewer than six columns gives no record, and
    there are at most as many records as rows minus the header. *)
Theorem carregar_dados_ordem_e_filtro :
  forall (linhas : list (list string)) (dados : list registro),
    ler_arquivo strptime float_of_str (Conteudo linhas) = Ok dados ->
    carregar_dados strptime float_of_str (Conteudo linhas) = dados /\
    exists cabecalho resto,
      linhas = cabecalho :: resto /\
      map Ok dados = map analisar (filter colunas_suficientes resto) /\
      Forall (fun linha => (6 <= List.length linha)%nat)
             (filter colunas_suficientes resto) /\
      Z.of_nat (List.length dados) <= Z.of_nat (List.length linhas) - 1.
Proof.
  intros linhas dados H. split.
  - unfold carregar_dados. now rewrite H.
  - destruct linhas as [|cab resto]; simpl in H; [discriminate|].
    exists cab, resto. apply percorrer_linhas_ok in H. simpl in H.
    repeat split; trivial.
    + apply Forall_forall. intros l Hl. apply filter_In in Hl as [_ Hl].
      now apply Nat.leb_le in Hl.
    + apply (f_equal (@List.length _)) in H. rewrite !length_map in H.
      pose proof (filter_length_le colunas_suficientes resto).
      simpl List.length. lia.
Qed.

(** C1, as the code has it. The [try] encloses the whole loop: when a
    row of six or more columns has a date or a number that the parsers
    refuse, the exception leaves the loop, the handler returns the
    empty list, and every record read before is lost with it. *)
Theorem carregar_dados_linha_invalida :
  forall (cabecalho linha : list string) (antes depois : list (list string)),
    (6 <= List.length linha)%nat ->
    campo_invalido strptime float_of_str linha ->
    carregar_dados strptime float_of_str
      (Conteudo (cabecalho :: antes ++ linha :: depois)) = [].
Proof.
  intros cab linha antes depois Hlen Hbad.
  assert (Hc : colunas_suficientes linha = true) by now apply Nat.leb_le.
  destruct (campo_invalido_raise linha Hc Hbad) as [e He].
  destruct (percorrer_linhas_raise antes depois linha e Hc He []) as [e' He'].
  unfold carregar_dados, ler_arquivo. rewrite He'. now destruct e'.
Qed.

End CargaProps.

Lemma carregar_dados_ordem_e_filtro_witness :
  ler_arquivo strptime_dmY float_decimal
    (Conteudo [linha_cabecalho; linha_boa; ["sem dados"%string]; linha_boa])
  = Ok [registro_bom; registro_bom] /\
  carregar_dados strptime_dmY float_decimal
    (Conteudo [linha_cabecalho; linha_boa; ["sem dados"%string]; linha_boa])
  = [registro_bom; registro_bom].
Proof.
  split; [reflexivity|].
  apply (carregar_dados_ordem_e_filtro strptime_dmY float_decimal
           [linha_cabecalho; linha_boa; ["sem dados"%string]; linha_boa]
           [registro_bom; registro_bom]).
  reflexivity.
Defined.

Lemma carregar_dados_linha_invalida_witness :
  carregar_dados strptime_dmY float_decimal
    (Conteudo (linha_cabecalho :: [linha_boa] ++ linha_ruim :: [linha_boa])) = [].
Proof.
  apply (carregar_dados_linha_invalida strptime_dmY float_decimal
           linha_cabecalho linha_ruim [linha_boa] [linha_boa]).
  - unfold linha_ruim. simpl. lia.
  - left. exists "xx/02/2015"%string, ValueError. split; reflexivity.
Defined.

(** C1 as stated fails: the file below has one well-formed row and one
    row of six columns with a bad date; the well-formed row alone loads
    as a record, yet the load of the whole file is empty, so that record
    is not returned. *)
Lemma carregar_dados_nao_e_por_linha :
  (6 <= List.length linha_ruim)%nat /\
  campo_invalido strptime_dmY float_decimal linha_ruim /\
  analisar_linha strptime_dmY float_decimal linha_boa = Ok registro_bom /\
  carregar_dados strptime_dmY float_decimal
    (Conteudo [linha_cabecalho; linha_boa]) = [registro_bom] /\
  carregar_dados strptime_dmY float_decimal
    (Conteudo [linha_cabecalho; linha_boa; linha_ruim]) = [] /\
  ~ In registro_bom
      (carregar_dados strptime_dmY float_decimal
         (Conteudo [linha_cabecalho; linha_boa; linha_ruim])).
Proof.
  repeat split; try reflexivity.
  - left. exists "xx/02/2015"%string, ValueError. split; reflexivity.
  - intros H. exact H.
Qed.

(** ** The display filter *)

Lemma imprimir_registros_filter (tipo : Z) (ini fim : datetime)
    (dados : list registro) :
  imprimir_registros tipo ini fim dados =
  flat_map (linha_registro tipo) (filter (no_intervalo ini fim) dados).
Proof.
  induction dados as [|r resto IH]; simpl; [reflexivity|].
  destruct (no_intervalo ini fim r); simpl; now rewrite IH.
Qed.

(** On a validated range both boundary dates can be built, and what is
    printed is the title, the header of the view and one line for each
    record that passes the test, in the order of the collection. *)
Lemma visualizar_dados_valido (dados : list registro)
    (mes_inicio ano_inicio mes_fim ano_fim tipo : Z) :
  validar_intervalo_datas dados mes_inicio ano_inicio mes_fim ano_fim = true ->
  visualizar_dados dados mes_inicio ano_inicio mes_fim ano_fim tipo =
  Ok (TituloPeriodo :: cabecalho tipo ++
      flat_map (linha_registro tipo)
        (filter (no_intervalo (primeiro_dia ano_inicio mes_inicio)
                              (primeiro_dia ano_fim mes_fim)) dados)).
Proof.
  intros Hv. unfold visualizar_dados. rewrite Hv. simpl.
  apply validar_true_iff in Hv as ((Hm1 & Hm2) & (Hy1 & Hy2) & _).
  rewrite !datetime_new_primeiro_dia by lia. simpl.
  now rewrite imprimir_registros_filter.
Qed.

Lemma no_intervalo_iff (ini fim : datetime) (r : registro) :
  no_intervalo ini fim r = true <->
  antes_ou_igual ini (data r) /\ antes_ou_igual (data r) fim.
Proof.
  unfold no_intervalo. rewrite andb_true_iff, !datetime_le_iff. tauto.
Qed.

(** C3. With the range January 2015 to March 2015, whatever the
    collection and the view, the lines printed are those of the records
    that pass the test of line 70 against 01/01/2015 and 01/03/2015; a
    record dated 15/02/2015 passes, one dated 01/04/2015 does not, one
    dated 01/03/2015 passes.  In general, on a validated range, a record
    is kept exactly when the first day of the start month is before or
    equal to its date and its date is before or equal to the first day of
    the end month. *)
Theorem filtro_limites :
  forall (dados : list registro) (tipo : Z),
    visualizar_dados dados 1 2015 3 2015 tipo =
      Ok (TituloPeriodo :: cabecalho tipo ++
          flat_map (linha_registro tipo)
            (filter (no_intervalo (primeiro_dia 2015 1) (primeiro_dia 2015 3))
                    dados)) /\
    (forall r, data r = mk_datetime 2015 2 15 ->
       no_intervalo (primeiro_dia 2015 1) (primeiro_dia 2015 3) r = true) /\
    (forall r, data r = mk_datetime 2015 4 1 ->
       no_intervalo (primeiro_dia 2015 1) (primeiro_dia 2015 3) r = false) /\
    (forall r, data r = mk_datetime 2015 3 1 ->
       no_intervalo (primeiro_dia 2015 1) (primeiro_dia 2015 3) r = true) /\
    (forall mes_inicio ano_inicio mes_fim ano_fim,
       validar_intervalo_datas dados mes_inicio ano_inicio mes_fim ano_fim
         = true ->
       visualizar_dados dados mes_inicio ano_inicio mes_fim ano_fim tipo =
         Ok (TituloPeriodo :: cabecalho tipo ++
             flat_map (linha_registro tipo)
               (filter (no_intervalo (primeiro_dia ano_inicio mes_inicio)
                                     (primeiro_dia ano_fim mes_fim)) dados)) /\
       forall r,
         no_intervalo (primeiro_dia ano_inicio mes_inicio)
                      (primeiro_dia ano_fim mes_fim) r = true <->
         antes_ou_igual (primeiro_dia ano_inicio mes_inicio) (data r) /\
         antes_ou_igual (data r) (primeiro_dia ano_fim mes_fim)).
Proof.
  intros dados tipo. split; [|split; [|split; [|split]]].
  - now apply visualizar_dados_valido.
  - intros r Hr. unfold no_intervalo. now rewrite Hr.
  - intros r Hr. unfold no_intervalo. now rewrite Hr.
  - intros r Hr. unfold no_intervalo. now rewrite Hr.
  - intros mi ai mf af Hv. split.
    + now apply visualizar_dados_valido.
    + intros r. apply no_intervalo_iff.
Qed.

Lemma filtro_limites_witness :
  visualizar_dados [reg_15_fev; reg_01_abr; reg_01_mar] 1 2015 3 2015 3 =
  Ok [TituloPeriodo;
      Cabecalho ["Data"; "Temp. Máx"; "Temp. Mín"]%string; Regua 40;
      Linha (mk_datetime 2015 2 15) [30; 20]%float;
      Linha (mk_datetime 2015 3 1) [31; 21]%float].
Proof.
  destruct (filtro_limites [reg_15_fev; reg_01_abr; reg_01_mar] 3)
    as (_ & _ & _ & _ & H).
  destruct (H 1 2015 3 2015) as [-> _]; reflexivity.
Defined.

(** C2, as the code has it. On a validated range, a record dated in the
    end month on a day after the 1st fails the test of line 70, and
    prints nothing: the output is the same as without it. *)
Theorem dias_do_mes_final_excluidos :
  forall (r : registro) (antes depois : list registro)
         (mes_inicio ano_inicio mes_fim ano_fim tipo : Z),
    validar_intervalo_datas (antes ++ r :: depois)
      mes_inicio ano_inicio mes_fim ano_fim = true ->
    year (data r) = ano_fim -> month (data r) = mes_fim -> 1 < day (data r) ->
    no_intervalo (primeiro_dia ano_inicio mes_inicio)
                 (primeiro_dia ano_fim mes_fim) r = false /\
    visualizar_dados (antes ++ r :: depois)
      mes_inicio ano_inicio mes_fim ano_fim tipo =
    visualizar_dados (antes ++ depois)
      mes_inicio ano_inicio mes_fim ano_fim tipo.
Proof.
  intros r antes depois mi ai mf af tipo Hv Hy Hm Hd.
  assert (Hout : no_intervalo (primeiro_dia ai mi) (primeiro_dia af mf) r
                 = false).
  { destruct (no_intervalo _ _ r) eqn:E; [|reflexivity].
    apply no_intervalo_iff in E as [_ E].
    unfold antes_ou_igual, primeiro_dia in E. simpl in E. lia. }
  split; [exact Hout|].
  rewrite (visualizar_dados_valido _ _ _ _ _ tipo Hv).
  rewrite (visualizar_dados_valido (antes ++ depois) mi ai mf af tipo Hv).
  rewrite !filter_app. simpl. now rewrite Hout.
Qed.

Lemma dias_do_mes_final_excluidos_witness :
  visualizar_dados ([reg_15_fev] ++ reg_02_mar :: [reg_01_mar]) 1 2015 3 2015 2 =
  visualizar_dados ([reg_15_fev] ++ [reg_01_mar]) 1 2015 3 2015 2.
Proof.
  apply (dias_do_mes_final_excluidos reg_02_mar [reg_15_fev] [reg_01_mar]
           1 2015 3 2015 2); simpl; try reflexivity; lia.
Defined.

(** C2 as stated fails: the range January 2015 to March 2015 is valid,
    the record is dated 02/03/2015, in the end month after the 1st, and
    the display of a collection with only that record prints the title
    and the header and no line for it. *)
Lemma dia_2_do_mes_final_nao_aparece :
  validar_intervalo_datas [reg_02_mar] 1 2015 3 2015 = true /\
  month (data reg_02_mar) = 3 /\ year (data reg_02_mar) = 2015 /\
  1 < day (data reg_02_mar) /\
  visualizar_dados [reg_02_mar] 1 2015 3 2015 1 =
    Ok [TituloPeriodo;
        Cabecalho ["Data"; "Precipitação"; "Temp. Máx"; "Temp. Mín";
                   "Umidade"; "Vento"]%string;
        Regua 70] /\
  (forall saidas,
     visualizar_dados [reg_02_mar] 1 2015 3 2015 1 = Ok saidas ->
     ~ In (Linha (data reg_02_mar)
             [precipitacao reg_02_mar; temp_max reg_02_mar;
              temp_min reg_02_mar; umidade reg_02_mar; vento reg_02_mar])
          saidas).
Proof.
  repeat split; try reflexivity.
  intros saidas H. vm_compute in H. injection H as <-.
  simpl. intros [H|[H|[H|[]]]]; discriminate.
Qed.

(** ** Order of floats

    The comparisons of primitive floats are specified on [spec_float];
    [<] is irreflexive and transitive, and total on numbers that are not
    NaN. *)

Lemma SFcompare_refl_nan (x : spec_float) :
  SFcompare x x = None \/ SFcompare x x = Some Eq.
Proof.
  destruct x as [s|s| |s m e]; simpl; auto; destruct s; auto;
    rewrite Z.compare_refl, Pos.compare_cont_refl; auto.
Qed.

Lemma SFltb_irrefl (x : spec_float) : SFltb x x = false.
Proof.
  unfold SFltb. destruct (SFcompare_refl_nan x) as [-> | ->]; reflexivity.
Qed.

Lemma SFltb_trans (x y z : spec_float) :
  SFltb x y = true -> SFltb y z = true -> SFltb x z = true.
Proof.
  unfold SFltb.
  destruct x as [sx|sx| |sx mx ex], y as [sy|sy| |sy my ey],
    z as [sz|sz| |sz mz ez]; simpl; try discriminate;
    try destruct sx; try destruct sy; try destruct sz; simpl;
    try discriminate; try reflexivity; intros H1 H2; cmp_cases.
Qed.

Lemma SFcompare_total (x y : spec_float) :
  SFcompare x x = Some Eq -> SFcompare y y = Some Eq ->
  SFltb x y = false -> SFleb y x = true.
Proof.
  unfold SFltb, SFleb.
  destruct x as [sx|sx| |sx mx ex], y as [sy|sy| |sy my ey]; simpl;
    try discriminate;
    try destruct sx; try destruct sy; simpl;
    try discriminate; try reflexivity; intros _ _ H; cmp_cases.
Qed.

Lemma ltb_irrefl (x : float) : PrimFloat.ltb x x = false.
Proof. rewrite FloatAxioms.ltb_spec. apply SFltb_irrefl. Qed.

Lemma ltb_trans (x y z : float) :
  PrimFloat.ltb x y = true -> PrimFloat.ltb y z = true -> PrimFloat.ltb x z = true.
Proof. rewrite !FloatAxioms.ltb_spec. apply SFltb_trans. Qed.

Lemma not_ltb_leb (x y : float) :
  is_nan x = false -> is_nan y = false ->
  PrimFloat.ltb x y = false -> PrimFloat.leb y x = true.
Proof.
  unfold is_nan. rewrite !FloatAxioms.eqb_spec, FloatAxioms.ltb_spec, FloatAxioms.leb_spec.
  unfold SFeqb. intros Hx Hy.
  apply SFcompare_total.
  - destruct (SFcompare_refl_nan (Prim2SF x)) as [E|E]; rewrite E in *; [discriminate|reflexivity].
  - destruct (SFcompare_refl_nan (Prim2SF y)) as [E|E]; rewrite E in *; [discriminate|reflexivity].
Qed.

(** ** Dictionaries *)

Section DictProps.

Context {V : Type}.
Implicit Types (d : dict V) (k : string) (v : V).

Lemma dict_get_set_eq k v d : dict_get k (dict_set k v d) = Some v.
Proof.
  induction d as [|[k' v'] d IH]; simpl.
  - now rewrite String.eqb_refl.
  - destruct (String.eqb k k') eqn:E; simpl; rewrite E; [reflexivity|exact IH].
Qed.

Lemma dict_get_set_ne k k' v d :
  k <> k' -> dict_get k' (dict_set k v d) = dict_get k' d.
Proof.
  intros Hne. induction d as [|[k1 v1] d IH]; simpl.
  - destruct (String.eqb_spec k' k); [congruence|reflexivity].
  - destruct (String.eqb_spec k k1) as [->|Hk]; simpl.
    + destruct (String.eqb_spec k' k1); [congruence|reflexivity].
    + now rewrite IH.
Qed.

Lemma dict_set_set k v v' d :
  dict_set k v' (dict_set k v d) = dict_set k v' d.
Proof.
  induction d as [|[k1 v1] d IH]; simpl.
  - now rewrite String.eqb_refl.
  - destruct (String.eqb k k1) eqn:E; simpl; rewrite E; [reflexivity|].
    now rewrite IH.
Qed.

Lemma dict_keys_set k v d :
  dict_keys (dict_set k v d) =
  if dict_mem k d then dict_keys d else dict_keys d ++ [k].
Proof.
  unfold dict_mem, dict_keys. induction d as [|[k1 v1] d IH]; simpl.
  - reflexivity.
  - destruct (String.eqb k k1) eqn:E; simpl; [reflexivity|].
    rewrite IH. now destruct (dict_get k d).
Qed.

Lemma dict_get_In k v d : dict_get k d = Some v -> In (k, v) d.
Proof.
  induction d as [|[k1 v1] d IH]; simpl; [discriminate|].
  destruct (String.eqb_spec k k1) as [->|Hk].
  - intros [= ->]. now left.
  - intros H. right. now apply IH.
Qed.

Lemma dict_get_None_keys k d : dict_get k d = None -> ~ In k (dict_keys d).
Proof.
  unfold dict_keys. induction d as [|[k1 v1] d IH]; simpl; [tauto|].
  destruct (String.eqb_spec k k1) as [->|Hk]; [discriminate|].
  intros H [E|Hin]; [congruence | now apply IH].
Qed.

Lemma dict_In_get k v d :
  NoDup (dict_keys d) -> In (k, v) d -> dict_get k d = Some v.
Proof.
  unfold dict_keys. induction d as [|[k1 v1] d IH]; simpl; [tauto|].
  intros Hnd [E|Hin].
  - injection E as -> ->. now rewrite String.eqb_refl.
  - inversion Hnd as [|? ? Hk1 Hnd']; subst.
    destruct (String.eqb_spec k k1) as [->|Hk].
    + exfalso. apply Hk1. apply (in_map fst) in Hin. exact Hin.
    + now apply IH.
Qed.

Lemma dict_set_NoDup k v d :
  NoDup (dict_keys d) -> NoDup (dict_keys (dict_set k v d)).
Proof.
  intros Hnd. rewrite dict_keys_set. unfold dict_mem.
  destruct (dict_get k d) eqn:E; [exact Hnd|].
  apply dict_get_None_keys in E.
  apply NoDup_app; [exact Hnd | repeat constructor; simpl; tauto |].
  intros x Hx [<-|[]]. contradiction.
Qed.

End DictProps.

(** ** Grouping *)

Section AgrupamentoProps.

Context {V : Type}.
Variable chave_de : registro -> string.
Variable cond : registro -> bool.
Variable v0 : V.
Variable f : V -> registro -> V.

Local Abbreviation upsert := (dict_upsert chave_de v0 f).
Local Abbreviation agrupar := (agrupar_por chave_de cond v0 f).
Local Abbreviation sel := (selecionados chave_de cond).

Lemma agrupar_por_get (k : string) (dados : list registro) :
  forall d : dict V,
    dict_get k (agrupar dados d) =
    match sel k dados with
    | [] => dict_get k d
    | _ :: _ => Some (fold_left f (sel k dados) (valor_ou_inicial v0 (dict_get k d)))
    end.
Proof.
  unfold selecionados.
  induction dados as [|r resto IH]; intros d; simpl; [reflexivity|].
  rewrite IH. destruct (cond r) eqn:Ec; simpl.
  - destruct (String.eqb_spec (chave_de r) k) as [<-|Hk]; simpl.
    + assert (Hu : dict_get (chave_de r) (upsert r d) =
                   Some (f (valor_ou_inicial v0 (dict_get (chave_de r) d)) r))
        by (unfold dict_upsert; apply dict_get_set_eq).
      rewrite Hu. simpl. now destruct (filter _ resto).
    + unfold dict_upsert. now rewrite (dict_get_set_ne _ _ _ _ Hk).
  - reflexivity.
Qed.

Lemma agrupar_por_NoDup (dados : list registro) :
  forall d : dict V,
    NoDup (dict_keys d) -> NoDup (dict_keys (agrupar dados d)).
Proof.
  induction dados as [|r resto IH]; intros d Hd; simpl; [exact Hd|].
  apply IH. destruct (cond r); [|exact Hd].
  now apply dict_set_NoDup.
Qed.

Lemma agrupar_por_filter (dados : list registro) :
  forall d : dict V,
    agrupar dados d =
    fold_left (fun d r => upsert r d) (filter cond dados) d.
Proof.
  induction dados as [|r resto IH]; intros d; simpl; [reflexivity|].
  rewrite IH. now destruct (cond r).
Qed.

(** A key of the grouping of [dados] from the empty dictionary is the
    key of one of the selected records. *)
Lemma agrupar_por_chave (k : string) (v : V) (dados : list registro) :
  dict_get k (agrupar dados []) = Some v ->
  sel k dados <> [] /\ v = fold_left f (sel k dados) v0.
Proof.
  rewrite agrupar_por_get. simpl.
  destruct (sel k dados) eqn:E; [discriminate|].
  intros [= <-]. split; [discriminate | reflexivity].
Qed.

End AgrupamentoProps.

Lemma fold_left_add_map {A : Type} (g : A -> float) (l : list A) (x : float) :
  fold_left (fun v r => PrimFloat.add v (g r)) l x =
  fold_left PrimFloat.add (map g l) x.
Proof. revert x. induction l as [|a l IH]; intros x; simpl; auto. Qed.

Lemma fold_left_snoc_map {A B : Type} (g : A -> B) (l : list A) (acc : list B) :
  fold_left (fun xs r => xs ++ [g r]) l acc = acc ++ map g l.
Proof.
  revert acc. induction l as [|a l IH]; intros acc; simpl.
  - now rewrite app_nil_r.
  - now rewrite IH, <- app_assoc.
Qed.

(** ** The wettest month *)

(** The loop of lines 84-88 never raises: the key read on line 88 was
    set on line 87 when it was absent. *)
Lemma acumular_precipitacao_agrupar (dados : list registro) :
  forall d : dict float,
    acumular_precipitacao dados d =
    Ok (agrupar_por chave_chuva (fun _ => true) float_zero soma_chuva dados d).
Proof.
  induction dados as [|r resto IH]; intros d; simpl; [reflexivity|].
  unfold dict_mem, dict_getitem, dict_upsert, chave_chuva, soma_chuva.
  destruct (dict_get (strftime_B_Y (data r)) d) eqn:E; simpl.
  - rewrite E. simpl. apply IH.
  - rewrite dict_get_set_eq. simpl. rewrite dict_set_set. apply IH.
Qed.

Lemma selecionados_chuva (k : string) (dados : list registro) :
  selecionados chave_chuva (fun _ => true) k dados = registros_da_chave k dados.
Proof. reflexivity. Qed.

Lemma maior_fold_In (resto : list (string * float)) :
  forall m, In (fold_left maior resto m) (m :: resto).
Proof.
  induction resto as [|x resto IH]; intros m; simpl; [now left|].
  destruct (IH (maior m x)) as [H|H]; [|now right; right].
  rewrite <- H. unfold maior.
  destruct (PrimFloat.ltb (snd m) (snd x)); [right|]; now left.
Qed.

Lemma maior_cases (m x : string * float) :
  (PrimFloat.ltb (snd m) (snd x) = true /\ maior m x = x) \/
  (PrimFloat.ltb (snd m) (snd x) = false /\ maior m x = m).
Proof. unfold maior. destruct (PrimFloat.ltb (snd m) (snd x)); auto. Qed.

Lemma ltb_asym (x y : float) :
  PrimFloat.ltb x y = true -> PrimFloat.ltb y x = false.
Proof.
  intros H. destruct (PrimFloat.ltb y x) eqn:E; [|reflexivity].
  pose proof (ltb_trans _ _ _ H E) as Hxx.
  rewrite ltb_irrefl in Hxx. discriminate.
Qed.

(** The candidate of [max] stays or is replaced by a greater one. *)
Lemma maior_fold_cases (l : list (string * float)) :
  forall m,
    fold_left maior l m = m \/
    PrimFloat.ltb (snd m) (snd (fold_left maior l m)) = true.
Proof.
  induction l as [|y l IH]; intros m; simpl; [now left|].
  destruct (maior_cases m y) as [[E Em]|[E Em]]; rewrite Em; [|apply IH].
  right. destruct (IH y) as [->|H]; [exact E|].
  exact (ltb_trans _ _ _ E H).
Qed.

(** No item is greater than the one [max] returns. *)
Lemma maior_fold_max (resto : list (string * float)) :
  forall m x,
    In x (m :: resto) ->
    PrimFloat.ltb (snd (fold_left maior resto m)) (snd x) = false.
Proof.
  induction resto as [|y resto IH]; intros m x Hx; simpl.
  - destruct Hx as [<-|[]]. apply ltb_irrefl.
  - destruct Hx as [<-|[<-|Hx]]; [| |apply IH; now right].
    + destruct (maior_cases m y) as [[E Em]|[E Em]]; rewrite Em;
        [|apply IH; now left].
      apply ltb_asym.
      destruct (maior_fold_cases resto y) as [->|H]; [exact E|].
      exact (ltb_trans _ _ _ E H).
    + destruct (maior_cases m y) as [[E Em]|[E Em]]; rewrite Em;
        [apply IH; now left|].
      destruct (maior_fold_cases resto m) as [->|H]; [exact E|].
      destruct (PrimFloat.ltb (snd (fold_left maior resto m)) (snd y)) eqn:E2;
        [|reflexivity].
      rewrite (ltb_trans _ _ _ H E2) in E. discriminate.
Qed.

(** The dictionary built by lines 82-88: a key is present when a record
    has it, and holds the sum of the rain of the records that have it. *)
Lemma precipitacao_por_mes_get (dados : list registro) (k : string) :
  dict_get k (agrupar_por chave_chuva (fun _ => true) float_zero soma_chuva
                dados []) =
  match registros_da_chave k dados with
  | [] => None
  | _ :: _ => Some (precipitacao_total k dados)
  end.
Proof.
  rewrite agrupar_por_get, selecionados_chuva. simpl.
  unfold precipitacao_total, py_sum, soma_chuva.
  now rewrite fold_left_add_map.
Qed.

Lemma registros_da_chave_In (r : registro) (dados : list registro) :
  In r dados -> In r (registros_da_chave (strftime_B_Y (data r)) dados).
Proof.
  intros H. apply filter_In. split; [exact H | apply String.eqb_refl].
Qed.

Lemma precipitacao_por_mes_In (r : registro) (dados : list registro) :
  In r dados ->
  In (strftime_B_Y (data r),
      precipitacao_total (strftime_B_Y (data r)) dados)
     (agrupar_por chave_chuva (fun _ => true) float_zero soma_chuva dados []).
Proof.
  intros H. apply dict_get_In. rewrite precipitacao_por_mes_get.
  apply registros_da_chave_In in H.
  destruct (registros_da_chave _ dados); [contradiction | reflexivity].
Qed.

(** What [mes_mais_chuvoso] returns on a collection that is not empty. *)
Lemma mes_mais_chuvoso_nao_vazio (dados : list registro) :
  dados <> [] ->
  exists mes total,
    mes_mais_chuvoso dados = Ok (mes, total) /\
    (exists r, In r dados /\ strftime_B_Y (data r) = mes) /\
    total = precipitacao_total mes dados /\
    (forall r, In r dados ->
       PrimFloat.ltb total
         (precipitacao_total (strftime_B_Y (data r)) dados) = false).
Proof.
  intros Hne. unfold mes_mais_chuvoso.
  rewrite acumular_precipitacao_agrupar. simpl.
  pose proof (precipitacao_por_mes_get dados) as Hget.
  pose proof (fun r => precipitacao_por_mes_In r dados) as Hin.
  assert (Hnd : NoDup (dict_keys
                (agrupar_por chave_chuva (fun _ => true) float_zero
                   soma_chuva dados [])))
    by (apply agrupar_por_NoDup; constructor).
  destruct (agrupar_por chave_chuva (fun _ => true) float_zero soma_chuva
              dados []) as [|primeiro resto] eqn:Eppm.
  - destruct dados as [|r0 ?]; [congruence|].
    destruct (Hin r0 (or_introl eq_refl)).
  - simpl. pose proof (maior_fold_In resto primeiro) as Hmax.
    destruct (fold_left maior resto primeiro) as [mes total] eqn:Em.
    exists mes, total. split; [reflexivity|].
    apply (dict_In_get _ _ _ Hnd) in Hmax. rewrite Hget in Hmax.
    destruct (registros_da_chave mes dados) as [|r0 rs] eqn:Er; [discriminate|].
    injection Hmax as <-.
    assert (H0 : In r0 (registros_da_chave mes dados))
      by (rewrite Er; now left).
    apply filter_In in H0 as [H0 Hk]. apply String.eqb_eq in Hk.
    repeat split.
    + now exists r0.
    + intros r Hr.
      pose proof (maior_fold_max resto primeiro _ (Hin r Hr)) as Hm.
      rewrite Em in Hm. exact Hm.
Qed.

(** C5. On a collection that is not empty, [mes_mais_chuvoso] returns
    the month/year key of one of the records together with the sum of
    the rain of all the records with that key, whatever their year, and
    no key has a greater sum; when no sum is a NaN, every sum is less
    than or equal to the one returned.  For one record of January 2010
    with 5.0 and one of February 2010 with 20.0, in either order, the
    result is February/2010 with 20.0. *)
Theorem mes_mais_chuvoso_correto :
  (forall dados : list registro,
     dados <> [] ->
     exists mes total,
       mes_mais_chuvoso dados = Ok (mes, total) /\
       (exists r, In r dados /\ strftime_B_Y (data r) = mes) /\
       total = precipitacao_total mes dados /\
       (forall r, In r dados ->
          PrimFloat.ltb total
            (precipitacao_total (strftime_B_Y (data r)) dados) = false) /\
       ((forall r, In r dados ->
           is_nan (precipitacao_total (strftime_B_Y (data r)) dados) = false) ->
        forall r, In r dados ->
          PrimFloat.leb (precipitacao_total (strftime_B_Y (data r)) dados)
                        total = true)) /\
  (forall r1 r2 : registro,
     year (data r1) = 2010 -> month (data r1) = 1 ->
     precipitacao r1 = 5%float ->
     year (data r2) = 2010 -> month (data r2) = 2 ->
     precipitacao r2 = 20%float ->
     mes_mais_chuvoso [r1; r2] = Ok ("February/2010"%string, 20%float) /\
     mes_mais_chuvoso [r2; r1] = Ok ("February/2010"%string, 20%float)).
Proof.
  split.
  - intros dados Hne.
    destruct (mes_mais_chuvoso_nao_vazio dados Hne)
      as (mes & total & Hok & (r0 & Hr0 & Hk) & Htot & Hmax).
    exists mes, total. repeat split; trivial.
    + now exists r0.
    + intros Hnan r Hr. apply not_ltb_leb.
      * rewrite Htot, <- Hk. now apply Hnan.
      * now apply Hnan.
      * now apply Hmax.
  - intros [[y1 m1 d1] p1 a1 b1 c1 e1] [[y2 m2 d2] p2 a2 b2 c2 e2]; simpl.
    intros -> -> -> -> -> ->. split; reflexivity.
Qed.

Lemma mes_mais_chuvoso_correto_witness :
  exists mes total,
    mes_mais_chuvoso [reg_jan_2010; reg_fev_2010] = Ok (mes, total) /\
    (exists r, In r [reg_jan_2010; reg_fev_2010] /\
               strftime_B_Y (data r) = mes) /\
    total = precipitacao_total mes [reg_jan_2010; reg_fev_2010] /\
    (forall r, In r [reg_jan_2010; reg_fev_2010] ->
       PrimFloat.ltb total
         (precipitacao_total (strftime_B_Y (data r))
            [reg_jan_2010; reg_fev_2010]) = false).
Proof.
  destruct (proj1 mes_mais_chuvoso_correto [reg_jan_2010; reg_fev_2010])
    as (mes & total & H1 & H2 & H3 & H4 & _); [discriminate|].
  exists mes, total. repeat split; assumption.
Defined.

(** Between two keys with the same total, [max] keeps the one that
    entered the dictionary first. *)
Example mes_mais_chuvoso_empate :
  mes_mais_chuvoso [reg_mar_2011; reg_abr_2011] =
    Ok ("March/2011"%string, 7.5%float) /\
  mes_mais_chuvoso [reg_abr_2011; reg_mar_2011] =
    Ok ("April/2011"%string, 7.5%float).
Proof. split; reflexivity. Qed.

(** C9. On the empty collection the grouping is empty and [max] raises
    [ValueError]; on a collection that is not empty the grouping has a
    key and a pair is returned. *)
Theorem mes_mais_chuvoso_vazio :
  forall dados : list registro,
    (dados = [] -> mes_mais_chuvoso dados = Raise ValueError) /\
    (dados <> [] -> exists mes total, mes_mais_chuvoso dados = Ok (mes, total)).
Proof.
  intros dados. split.
  - intros ->. reflexivity.
  - intros Hne.
    destruct (mes_mais_chuvoso_nao_vazio dados Hne) as (mes & total & H & _).
    now exists mes, total.
Qed.

Lemma mes_mais_chuvoso_vazio_witness :
  mes_mais_chuvoso [] = Raise ValueError /\
  exists mes total, mes_mais_chuvoso [reg_jan_2010] = Ok (mes, total).
Proof.
  split.
  - apply (proj1 (mes_mais_chuvoso_vazio [])). reflexivity.
  - apply (proj2 (mes_mais_chuvoso_vazio [reg_jan_2010])). discriminate.
Defined.

(** ** The monthly minimum-temperature trend *)

Lemma str_int_inj (a b : Z) : str_int a = str_int b -> a = b.
Proof.
  unfold str_int. intros H. apply to_int_inj.
  assert (Hn : forall z, Z.to_int z <> Decimal.Pos Decimal.Nil /\
                         Z.to_int z <> Decimal.Neg Decimal.Nil).
  { intros z. destruct z; simpl; split; try discriminate; intros [= E];
      now apply (DecimalPos.Unsigned.to_uint_nonnil p). }
  pose proof (NilZero.isi (Z.to_int a) (proj1 (Hn a)) (proj2 (Hn a))) as Ha.
  pose proof (NilZero.isi (Z.to_int b) (proj1 (Hn b)) (proj2 (Hn b))) as Hb.
  rewrite H in Ha. congruence.
Qed.

Lemma append_inj_r (s a b : string) : (s ++ a = s ++ b)%string -> a = b.
Proof. induction s; simpl; intros H; [exact H|]. injection H as H. auto. Qed.

Lemma chave_do_ano_inj (mes a b : Z) :
  chave_do_ano mes a = chave_do_ano mes b -> a = b.
Proof. intros H. apply append_inj_r in H. now apply str_int_inj. Qed.

(** The loop of lines 99-104 never raises: the key read on line 104 was
    set on line 103 when it was absent. *)
Lemma agrupar_temp_min_agrupar (mes : Z) (dados : list registro) :
  forall d : dict (list float),
    agrupar_temp_min dados mes d =
    Ok (agrupar_por chave_temp (na_faixa mes) [] junta_temp dados d).
Proof.
  induction dados as [|r resto IH]; intros d; simpl; [reflexivity|].
  destruct (na_faixa mes r); [|apply IH].
  unfold dict_mem, dict_getitem, dict_upsert, chave_temp, junta_temp.
  destruct (dict_get (chave_mes_ano (data r)) d) eqn:E; simpl.
  - rewrite E. simpl. apply IH.
  - rewrite dict_get_set_eq. simpl. rewrite dict_set_set. apply IH.
Qed.

Lemma medias_por_ano_get (mes : Z) (dados : list registro) (k : string) :
  dict_get k (agrupar_por chave_temp (na_faixa mes) [] junta_temp dados []) =
  match selecionados chave_temp (na_faixa mes) k dados with
  | [] => None
  | _ :: _ =>
      Some (map temp_min (selecionados chave_temp (na_faixa mes) k dados))
  end.
Proof.
  rewrite agrupar_por_get. simpl. unfold junta_temp.
  now rewrite fold_left_snoc_map.
Qed.

(** Within the band of years the records of a key are those of its year. *)
Lemma selecionados_do_ano (mes ano : Z) (dados : list registro) :
  2006 <= ano <= 2016 ->
  selecionados chave_temp (na_faixa mes) (chave_do_ano mes ano) dados =
  registros_do_ano mes ano dados.
Proof.
  intros Hano. unfold selecionados, registros_do_ano.
  apply filter_ext. intros r.
  unfold na_faixa, chave_temp, chave_mes_ano.
  destruct (Z.eqb_spec (month (data r)) mes) as [->|Hm];
    [|now rewrite andb_false_r].
  fold (chave_do_ano mes (year (data r))).
  destruct (Z.eqb_spec (year (data r)) ano) as [->|Hy].
  - rewrite String.eqb_refl.
    destruct (Z.leb_spec 2006 ano), (Z.leb_spec ano 2016); simpl; trivial; lia.
  - destruct (String.eqb_spec (chave_do_ano mes (year (data r)))
                (chave_do_ano mes ano)) as [E|E].
    + apply chave_do_ano_inj in E. contradiction.
    + now rewrite andb_false_r.
Qed.

Lemma calcular_medias_ok (d : dict (list float)) :
  (forall k temps, In (k, temps) d -> temps <> []) ->
  calcular_medias d = Ok (map (fun kl => (fst kl, media_lista (snd kl))) d).
Proof.
  induction d as [|[k temps] d IH]; intros Hne; simpl; [reflexivity|].
  assert (Ht : temps <> []) by (apply (Hne k); now left).
  destruct temps as [|t temps]; [congruence|].
  rewrite IH by (intros k' l' H'; apply (Hne k'); now right).
  reflexivity.
Qed.

Lemma dict_get_map_valores {A B : Type} (g : A -> B) (k : string) (d : dict A) :
  dict_get k (map (fun kl => (fst kl, g (snd kl))) d) =
  option_map g (dict_get k d).
Proof.
  induction d as [|[k1 v1] d IH]; simpl; [reflexivity|].
  now destruct (String.eqb k k1).
Qed.

Lemma dict_keys_map_valores {A B : Type} (g : A -> B) (d : dict A) :
  dict_keys (map (fun kl => (fst kl, g (snd kl))) d) = dict_keys d.
Proof. unfold dict_keys. rewrite map_map. reflexivity. Qed.

Lemma media_temp_minima_mes_agrupada (dados : list registro) (mes : Z) :
  1 <= mes <= 12 ->
  media_temp_minima_mes dados mes =
  Ok (map (fun kl => (fst kl, media_lista (snd kl)))
        (agrupar_por chave_temp (na_faixa mes) [] junta_temp dados [])).
Proof.
  intros Hmes. unfold media_temp_minima_mes.
  replace ((1 <=? mes) && (mes <=? 12)) with true
    by (symmetry; apply andb_true_intro; split; apply Z.leb_le; lia).
  simpl. rewrite agrupar_temp_min_agrupar. simpl.
  apply calcular_medias_ok. intros k temps Hin.
  apply dict_In_get in Hin; [|apply agrupar_por_NoDup; constructor].
  rewrite medias_por_ano_get in Hin.
  destruct (selecionados chave_temp (na_faixa mes) k dados);
    [discriminate|].
  injection Hin as <-. discriminate.
Qed.

(** C4. For a month in 1..12 the function returns a dictionary, without
    raising, in which every year of 2006..2016 with at least one record
    of that month has, under the key made of the month name and the
    year, the sum of the minimum temperatures of those records divided
    by their number; a year of the band without such a record has no
    key; and there is no other key.  When the records of January of the
    years 2006..2016 are two records of 2007 with minimum temperatures
    10.0 and 14.0, the result is the single entry January2007 : 12.0. *)
Theorem media_temp_minima_mes_correta :
  (forall (dados : list registro) (mes : Z),
     1 <= mes <= 12 ->
     exists medias,
       media_temp_minima_mes dados mes = Ok medias /\
       NoDup (dict_keys medias) /\
       (forall ano, 2006 <= ano <= 2016 ->
          dict_get (chave_do_ano mes ano) medias =
          match registros_do_ano mes ano dados with
          | [] => None
          | _ :: _ => Some (media_do_ano mes ano dados)
          end) /\
       (forall k, In k (dict_keys medias) ->
          exists ano, 2006 <= ano <= 2016 /\ k = chave_do_ano mes ano /\
                      registros_do_ano mes ano dados <> [])) /\
  (forall (dados : list registro) (r1 r2 : registro),
     filter (na_faixa 1) dados = [r1; r2] ->
     year (data r1) = 2007 -> year (data r2) = 2007 ->
     (temp_min r1 = 10%float /\ temp_min r2 = 14%float) \/
     (temp_min r1 = 14%float /\ temp_min r2 = 10%float) ->
     media_temp_minima_mes dados 1 = Ok [("January2007"%string, 12%float)]).
Proof.
  split.
  - intros dados mes Hmes.
    eexists. split; [now apply media_temp_minima_mes_agrupada|].
    split; [|split].
    + rewrite dict_keys_map_valores. apply agrupar_por_NoDup. constructor.
    + intros ano Hano.
      rewrite dict_get_map_valores, medias_por_ano_get,
        selecionados_do_ano by exact Hano.
      unfold media_do_ano.
      now destruct (registros_do_ano mes ano dados).
    + intros k Hk. rewrite dict_keys_map_valores in Hk.
      apply in_map_iff in Hk as ([k' temps] & <- & Hin). simpl.
      apply dict_In_get in Hin; [|apply agrupar_por_NoDup; constructor].
      rewrite medias_por_ano_get in Hin.
      destruct (selecionados chave_temp (na_faixa mes) k' dados)
        as [|r rs] eqn:Es; [discriminate|].
      assert (Hr : In r (selecionados chave_temp (na_faixa mes) k' dados))
        by (rewrite Es; now left).
      apply filter_In in Hr as [Hr Hc].
      apply andb_true_iff in Hc as [Hf Hkey].
      apply String.eqb_eq in Hkey.
      unfold na_faixa in Hf.
      apply andb_true_iff in Hf as [Hf Hm].
      apply andb_true_iff in Hf as [Hlo Hhi].
      apply Z.leb_le in Hlo, Hhi. apply Z.eqb_eq in Hm.
      exists (year (data r)). split; [lia|]. split.
      * rewrite <- Hkey, <- Hm. reflexivity.
      * intros Hnil.
        assert (Hin' : In r (registros_do_ano mes (year (data r)) dados)).
        { apply filter_In. split; [exact Hr|].
          now rewrite Hm, !Z.eqb_refl. }
        rewrite Hnil in Hin'. contradiction.
  - intros dados r1 r2 Hf Hy1 Hy2 Ht.
    rewrite media_temp_minima_mes_agrupada by lia.
    rewrite agrupar_por_filter, Hf.
    assert (Hm : month (data r1) = 1 /\ month (data r2) = 1).
    { split.
      - assert (H : In r1 (filter (na_faixa 1) dados))
          by (rewrite Hf; now left).
        apply filter_In in H as [_ H]. unfold na_faixa in H.
        apply andb_true_iff in H as [_ H]. now apply Z.eqb_eq in H.
      - assert (H : In r2 (filter (na_faixa 1) dados))
          by (rewrite Hf; right; now left).
        apply filter_In in H as [_ H]. unfold na_faixa in H.
        apply andb_true_iff in H as [_ H]. now apply Z.eqb_eq in H. }
    destruct Hm as [Hm1 Hm2].
    destruct r1 as [[y1 m1 d1] p1 a1 t1 u1 w1],
             r2 as [[y2 m2 d2] p2 a2 t2 u2 w2]; simpl in *.
    subst y1 y2 m1 m2.
    destruct Ht as [[-> ->]|[-> ->]]; reflexivity.
Qed.

Lemma media_temp_minima_mes_correta_witness :
  media_temp_minima_mes dados_jan_2007 1 = Ok [("January2007"%string, 12%float)] /\
  exists medias,
    media_temp_minima_mes dados_jan_2007 1 = Ok medias /\
    dict_get (chave_do_ano 1 2007) medias =
      Some (media_do_ano 1 2007 dados_jan_2007) /\
    dict_get (chave_do_ano 1 2010) medias = None.
Proof.
  split.
  - apply (proj2 media_temp_minima_mes_correta dados_jan_2007
             reg_jan_2007_a reg_jan_2007_b); try reflexivity.
    left. split; reflexivity.
  - destruct (proj1 media_temp_minima_mes_correta dados_jan_2007 1)
      as (medias & Hok & _ & Hget & _); [lia|].
    exists medias. split; [exact Hok|]. split.
    + rewrite (Hget 2007) by lia. reflexivity.
    + rewrite (Hget 2010) by lia. reflexivity.
Defined.

(** C7. A month outside 1..12 gives the empty dictionary, whatever the
    collection, and nothing is raised. *)
Theorem media_temp_minima_mes_mes_invalido :
  forall (dados : list registro) (mes : Z),
    mes < 1 \/ 12 < mes ->
    media_temp_minima_mes dados mes = Ok [].
Proof.
  intros dados mes Hmes. unfold media_temp_minima_mes.
  destruct (Z.leb_spec 1 mes), (Z.leb_spec mes 12); simpl; trivial; lia.
Qed.

Lemma media_temp_minima_mes_mes_invalido_witness :
  media_temp_minima_mes dados_jan_2007 13 = Ok [].
Proof.
  apply (media_temp_minima_mes_mes_invalido dados_jan_2007 13). right. lia.
Defined.

(** ** The concrete parsers on sample texts *)

Example strptime_ok :
  strptime_dmY "15/02/2015" = Ok (mk_datetime 2015 2 15).
Proof. reflexivity. Qed.

Example strptime_bad_day : strptime_dmY "31/02/2015" = Raise ValueError.
Proof. reflexivity. Qed.

Example strptime_bad_text : strptime_dmY "2015-02-15" = Raise ValueError.
Proof. reflexivity. Qed.

Example float_decimal_ok :
  float_decimal "12.5" = Ok 12.5%float /\ float_decimal "-2.25" = Ok (-2.25)%float.
Proof. split; reflexivity. Qed.

Example float_decimal_bad : float_decimal "n/d" = Raise ValueError.
Proof. reflexivity. Qed.

(** * Further properties of the code *)

(** ** More on the loader *)

Section CargaMais.

Variable strptime : string -> result datetime.
Variable float_of_str : string -> result float.

Local Abbreviation analisar := (analisar_linha strptime float_of_str).
Local Abbreviation percorrer := (percorrer_linhas strptime float_of_str).
Local Abbreviation ler := (ler_arquivo strptime float_of_str).
Local Abbreviation carregar := (carregar_dados strptime float_of_str).

Lemma percorrer_linhas_sucesso (leitor : list (list string))
    (novos : list registro) :
  map analisar (filter colunas_suficientes leitor) = map Ok novos ->
  forall acc, percorrer leitor acc = Ok (acc ++ novos).
Proof.
  revert novos.
  induction leitor as [|linha resto IH]; intros novos H acc; simpl in *.
  - destruct novos; [|discriminate]. now rewrite app_nil_r.
  - destruct (colunas_suficientes linha); [|now apply IH].
    destruct novos as [|r novos]; [discriminate|].
    simpl in H. injection H as Hr H. rewrite Hr. simpl.
    rewrite (IH novos H), <- app_assoc. reflexivity.
Qed.

Lemma map_Ok_inj {A : Type} (l1 l2 : list A) :
  map (@Ok A) l1 = map (@Ok A) l2 -> l1 = l2.
Proof.
  revert l2. induction l1 as [|a l1 IH]; intros [|b l2] H;
    try discriminate; [reflexivity|].
  simpl in H. injection H as -> H. f_equal. now apply IH.
Qed.

(** The loop goes through exactly when every row of six or more columns
    is accepted by the parsers. *)
Theorem ler_arquivo_sucesso_iff :
  forall (cabecalho : list string) (linhas : list (list string)),
    (exists dados, ler (Conteudo (cabecalho :: linhas)) = Ok dados) <->
    Forall (fun linha => exists r, analisar linha = Ok r)
           (filter colunas_suficientes linhas).
Proof.
  intros cab linhas. simpl. split.
  - intros [dados H]. apply percorrer_linhas_ok in H. simpl in H.
    revert dados H.
    induction (filter colunas_suficientes linhas) as [|l ls IH];
      intros dados H; [constructor|].
    destruct dados as [|r dados]; [discriminate|].
    simpl in H. injection H as Hr H.
    constructor; [now exists r | now apply (IH dados)].
  - intros HF.
    assert (Hn : exists novos,
               map analisar (filter colunas_suficientes linhas) = map Ok novos).
    { induction HF as [|l ls [r Hr] _ [novos IH]]; [now exists []|].
      exists (r :: novos). simpl. now rewrite Hr, IH. }
    destruct Hn as [novos Hn]. exists novos.
    now rewrite (percorrer_linhas_sucesso _ _ Hn).
Qed.

(** A row of fewer than six columns leaves no trace: the load is the
    same with the row and without it, wherever it stands. *)
Theorem carregar_dados_linha_curta :
  forall (cabecalho curta : list string) (antes depois : list (list string)),
    (List.length curta < 6)%nat ->
    carregar (Conteudo (cabecalho :: antes ++ curta :: depois)) =
    carregar (Conteudo (cabecalho :: antes ++ depois)).
Proof.
  intros cab curta antes depois Hlen.
  assert (Hc : colunas_suficientes curta = false)
    by (apply Nat.leb_gt; exact Hlen).
  unfold carregar_dados, ler_arquivo.
  assert (H : forall acc,
             percorrer (antes ++ curta :: depois) acc =
             percorrer (antes ++ depois) acc).
  { induction antes as [|l antes IH]; intros acc; simpl.
    - now rewrite Hc.
    - destruct (colunas_suficientes l); [|apply IH].
      destruct (analisar l); simpl; [apply IH | reflexivity]. }
  now rewrite H.
Qed.

Lemma analisar_linha_firstn (linha : list string) :
  colunas_suficientes linha = true ->
  analisar (firstn 6 linha) = analisar linha.
Proof.
  unfold colunas_suficientes. intros H. apply Nat.leb_le in H.
  destruct linha as [|c0 [|c1 [|c2 [|c3 [|c4 [|c5 resto]]]]]];
    simpl in H; try lia.
  reflexivity.
Qed.

Lemma colunas_suficientes_firstn (linha : list string) :
  colunas_suficientes (firstn 6 linha) = colunas_suficientes linha.
Proof.
  unfold colunas_suficientes. rewrite length_firstn.
  destruct (Nat.leb_spec 6 (List.length linha)) as [H|H].
  - apply Nat.leb_le. lia.
  - apply Nat.leb_gt. lia.
Qed.

(** The text of the header row and the columns after the sixth are never
    read: another header and rows cut to six columns load the same. *)
Theorem carregar_dados_colunas_extras :
  forall (cabecalho outro_cabecalho : list string)
         (linhas : list (list string)),
    carregar (Conteudo (cabecalho :: linhas)) =
    carregar (Conteudo (outro_cabecalho :: map (firstn 6) linhas)).
Proof.
  intros cab cab' linhas. unfold carregar_dados, ler_arquivo.
  assert (H : forall acc,
             percorrer (map (firstn 6) linhas) acc = percorrer linhas acc).
  { induction linhas as [|l linhas IH]; intros acc; [reflexivity|].
    cbn [map percorrer_linhas].
    rewrite colunas_suficientes_firstn.
    destruct (colunas_suficientes l) eqn:E; [|apply IH].
    rewrite (analisar_linha_firstn l E).
    destruct (analisar l); simpl; [apply IH | reflexivity]. }
  now rewrite H.
Qed.

(** Loading is additive over the rows: when two bodies load, each after
    a header, their concatenation after a header loads as the records of
    the first followed by the records of the second. *)
Theorem ler_arquivo_concatenacao :
  forall (c1 c2 c3 : list string) (l1 l2 : list (list string))
         (d1 d2 : list registro),
    ler (Conteudo (c1 :: l1)) = Ok d1 ->
    ler (Conteudo (c2 :: l2)) = Ok d2 ->
    ler (Conteudo (c3 :: l1 ++ l2)) = Ok (d1 ++ d2).
Proof.
  intros c1 c2 c3 l1 l2 d1 d2 H1 H2. simpl in *.
  apply percorrer_linhas_ok in H1, H2. simpl in H1, H2.
  apply (percorrer_linhas_sucesso (l1 ++ l2) (d1 ++ d2)).
  now rewrite filter_app, !map_app, H1, H2.
Qed.

(** The list returned is empty exactly when the reading raised or no row
    after the header has six or more columns; [main] cannot tell the two
    apart. *)
Theorem carregar_dados_vazio_iff :
  forall arq : arquivo,
    carregar arq = [] <->
    (exists e, ler arq = Raise e) \/
    (exists cabecalho linhas,
        arq = Conteudo (cabecalho :: linhas) /\
        filter colunas_suficientes linhas = [] /\
        ler arq = Ok []).
Proof.
  intros arq. unfold carregar_dados. split.
  - destruct (ler arq) as [dados|e] eqn:E; [|intros _; left; now exists e].
    intros ->. right.
    destruct arq as [| |[|cab linhas]]; simpl in E; try discriminate.
    exists cab, linhas. repeat split.
    apply percorrer_linhas_ok in E. simpl in E.
    destruct (filter colunas_suficientes linhas); [reflexivity|discriminate].
  - intros [[e ->]|(cab & linhas & -> & _ & ->)]; [now destruct e|reflexivity].
Qed.

End CargaMais.

Lemma ler_arquivo_sucesso_iff_witness :
  exists dados,
    ler_arquivo strptime_dmY float_decimal
      (Conteudo [linha_cabecalho; linha_boa; ["15/02"%string]; linha_boa])
    = Ok dados.
Proof.
  apply (proj2 (ler_arquivo_sucesso_iff strptime_dmY float_decimal
                  linha_cabecalho [linha_boa; ["15/02"%string]; linha_boa])).
  repeat constructor; exists registro_bom; reflexivity.
Defined.

Lemma carregar_dados_linha_curta_witness :
  carregar_dados strptime_dmY float_decimal
    (Conteudo (linha_cabecalho :: [linha_boa] ++ ["15/02"%string; "1.0"%string]
                 :: [linha_boa])) =
  carregar_dados strptime_dmY float_decimal
    (Conteudo (linha_cabecalho :: [linha_boa] ++ [linha_boa])).
Proof.
  apply (carregar_dados_linha_curta strptime_dmY float_decimal
           linha_cabecalho ["15/02"%string; "1.0"%string]
           [linha_boa] [linha_boa]).
  simpl. lia.
Defined.

Lemma ler_arquivo_concatenacao_witness :
  ler_arquivo strptime_dmY float_decimal
    (Conteudo (linha_cabecalho :: [linha_boa] ++ [[]; linha_boa])) =
  Ok ([registro_bom] ++ [registro_bom]).
Proof.
  apply (ler_arquivo_concatenacao strptime_dmY float_decimal
           linha_cabecalho linha_cabecalho linha_cabecalho
           [linha_boa] [[]; linha_boa]); reflexivity.
Defined.

(** ** More on the display *)

(** A validated range always gives two dates that the [datetime]
    constructor accepts, the first not after the second. *)
Theorem validar_intervalo_datas_garante_datas :
  forall (dados : list registro) (mes_inicio ano_inicio mes_fim ano_fim : Z),
    validar_intervalo_datas dados mes_inicio ano_inicio mes_fim ano_fim = true ->
    datetime_new ano_inicio mes_inicio 1 =
      Ok (primeiro_dia ano_inicio mes_inicio) /\
    datetime_new ano_fim mes_fim 1 = Ok (primeiro_dia ano_fim mes_fim) /\
    datetime_le (primeiro_dia ano_inicio mes_inicio)
                (primeiro_dia ano_fim mes_fim) = true.
Proof.
  intros dados mi ai mf af Hv.
  apply validar_true_iff in Hv as ((Hm1 & Hm2) & (Hy1 & Hy2) & Hord).
  repeat split; try (apply datetime_new_primeiro_dia; lia).
  apply datetime_le_iff. unfold antes_ou_igual, primeiro_dia; simpl. lia.
Qed.

Lemma validar_intervalo_datas_garante_datas_witness :
  datetime_new 1961 1 1 = Ok (primeiro_dia 1961 1) /\
  datetime_new 2016 12 1 = Ok (primeiro_dia 2016 12) /\
  datetime_le (primeiro_dia 1961 1) (primeiro_dia 2016 12) = true.
Proof.
  apply (validar_intervalo_datas_garante_datas [] 1 1961 12 2016).
  reflexivity.
Defined.

(** The display never raises: the two [datetime] constructions of lines
    52-53 come after the validation, which keeps years and months within
    what the constructor accepts.  A refused range prints the warning
    and nothing else; an accepted one starts with the title. *)
Theorem visualizar_dados_nunca_levanta :
  forall (dados : list registro)
         (mes_inicio ano_inicio mes_fim ano_fim tipo : Z),
    exists saidas,
      visualizar_dados dados mes_inicio ano_inicio mes_fim ano_fim tipo
        = Ok saidas /\
      (validar_intervalo_datas dados mes_inicio ano_inicio mes_fim ano_fim
         = false -> saidas = [AvisoIntervaloInvalido]) /\
      (validar_intervalo_datas dados mes_inicio ano_inicio mes_fim ano_fim
         = true -> exists resto, saidas = TituloPeriodo :: resto).
Proof.
  intros dados mi ai mf af tipo.
  destruct (validar_intervalo_datas dados mi ai mf af) eqn:Hv.
  - rewrite (visualizar_dados_valido _ _ _ _ _ tipo Hv).
    eexists. split; [reflexivity|]. split; [discriminate|].
    intros _. eexists. reflexivity.
  - unfold visualizar_dados. rewrite Hv. simpl.
    eexists. split; [reflexivity|]. split; [reflexivity|discriminate].
Qed.

(** A range of a single month shows only the records of its first day:
    both bounds are that day. *)
Theorem visualizar_dados_mes_unico :
  forall (dados : list registro) (mes ano tipo : Z),
    validar_intervalo_datas dados mes ano mes ano = true ->
    visualizar_dados dados mes ano mes ano tipo =
      Ok (TituloPeriodo :: cabecalho tipo ++
          flat_map (linha_registro tipo)
            (filter (no_intervalo (primeiro_dia ano mes) (primeiro_dia ano mes))
                    dados)) /\
    forall r,
      no_intervalo (primeiro_dia ano mes) (primeiro_dia ano mes) r = true <->
      data r = mk_datetime ano mes 1.
Proof.
  intros dados mes ano tipo Hv. split; [now apply visualizar_dados_valido|].
  intros r. rewrite no_intervalo_iff. unfold antes_ou_igual, primeiro_dia.
  destruct (data r) as [y m d]; simpl. split.
  - intros [H1 H2]. f_equal; lia.
  - intros [= -> -> ->]. lia.
Qed.

Lemma visualizar_dados_mes_unico_witness :
  visualizar_dados [reg_15_fev; reg_01_mar; reg_02_mar] 3 2015 3 2015 2 =
  Ok [TituloPeriodo; Cabecalho ["Data"; "Precipitação"]%string; Regua 25;
      Linha (mk_datetime 2015 3 1) [0%float]].
Proof.
  destruct (visualizar_dados_mes_unico [reg_15_fev; reg_01_mar; reg_02_mar]
              3 2015 2) as [-> _]; reflexivity.
Defined.

(** Every day of the start month and of the months before the end month
    passes the test of line 70, unlike the days of the end month. *)
Theorem visualizar_dados_meses_anteriores :
  forall (mes_inicio ano_inicio mes_fim ano_fim : Z) (r : registro),
    1 <= day (data r) ->
    ano_inicio < year (data r) \/
      (ano_inicio = year (data r) /\ mes_inicio <= month (data r)) ->
    year (data r) < ano_fim \/
      (year (data r) = ano_fim /\ month (data r) < mes_fim) ->
    no_intervalo (primeiro_dia ano_inicio mes_inicio)
                 (primeiro_dia ano_fim mes_fim) r = true.
Proof.
  intros mi ai mf af r Hd Hini Hfim.
  apply no_intervalo_iff. unfold antes_ou_igual, primeiro_dia; simpl. lia.
Qed.

Lemma visualizar_dados_meses_anteriores_witness :
  no_intervalo (primeiro_dia 2015 1) (primeiro_dia 2015 3) reg_15_fev = true.
Proof.
  apply (visualizar_dados_meses_anteriores 1 2015 3 2015 reg_15_fev);
    simpl; lia.
Defined.

(** With a view other than 1 to 4 a valid range prints the title only:
    no header and no record, whatever the collection holds. *)
Theorem visualizar_dados_tipo_desconhecido :
  forall (dados : list registro)
         (mes_inicio ano_inicio mes_fim ano_fim tipo : Z),
    validar_intervalo_datas dados mes_inicio ano_inicio mes_fim ano_fim = true ->
    tipo < 1 \/ 4 < tipo ->
    visualizar_dados dados mes_inicio ano_inicio mes_fim ano_fim tipo =
      Ok [TituloPeriodo].
Proof.
  intros dados mi ai mf af tipo Hv Ht.
  rewrite (visualizar_dados_valido _ _ _ _ _ tipo Hv).
  assert (Hc : cabecalho tipo = []).
  { unfold cabecalho.
    destruct (Z.eqb_spec tipo 1), (Z.eqb_spec tipo 2), (Z.eqb_spec tipo 3),
      (Z.eqb_spec tipo 4); trivial; lia. }
  assert (Hl : forall r, linha_registro tipo r = []).
  { intros r. unfold linha_registro.
    destruct (Z.eqb_spec tipo 1), (Z.eqb_spec tipo 2), (Z.eqb_spec tipo 3),
      (Z.eqb_spec tipo 4); trivial; lia. }
  rewrite Hc. simpl. do 2 f_equal.
  induction (filter _ dados) as [|r rs IH]; simpl; [reflexivity|].
  now rewrite Hl, IH.
Qed.

Lemma visualizar_dados_tipo_desconhecido_witness :
  visualizar_dados [reg_15_fev; reg_01_mar] 1 2015 3 2015 7 = Ok [TituloPeriodo].
Proof.
  apply (visualizar_dados_tipo_desconhecido [reg_15_fev; reg_01_mar]
           1 2015 3 2015 7); [reflexivity | lia].
Defined.

Lemma tipo_casos (tipo : Z) :
  1 <= tipo <= 4 -> tipo = 1 \/ tipo = 2 \/ tipo = 3 \/ tipo = 4.
Proof. lia. Qed.

(** In the four views, on a valid range, the record lines are one per
    record in range, in the order of the collection, each with the date
    of its record and with five, one, two and two values. *)
Theorem visualizar_dados_linhas :
  forall (dados : list registro)
         (mes_inicio ano_inicio mes_fim ano_fim tipo : Z) (saidas : list saida),
    validar_intervalo_datas dados mes_inicio ano_inicio mes_fim ano_fim = true ->
    1 <= tipo <= 4 ->
    visualizar_dados dados mes_inicio ano_inicio mes_fim ano_fim tipo
      = Ok saidas ->
    datas_das_linhas saidas =
      map data (filter (no_intervalo (primeiro_dia ano_inicio mes_inicio)
                                     (primeiro_dia ano_fim mes_fim)) dados) /\
    Forall (linha_bem_formada tipo) saidas.
Proof.
  intros dados mi ai mf af tipo saidas Hv Ht H.
  rewrite (visualizar_dados_valido _ _ _ _ _ tipo Hv) in H.
  injection H as <-.
  set (sel := filter _ dados). clearbody sel.
  destruct (tipo_casos tipo Ht) as [-> | [-> | [-> | ->]]]; simpl; split;
    try (induction sel as [|r rs IH]; simpl; [reflexivity | now rewrite IH]);
    repeat constructor;
    induction sel as [|r rs IH]; simpl; constructor; trivial; reflexivity.
Qed.

Lemma visualizar_dados_linhas_witness :
  datas_das_linhas
    [TituloPeriodo; Cabecalho ["Data"; "Umidade"; "Vento"]%string; Regua 30;
     Linha (mk_datetime 2015 2 15) [80; 2.5]%float;
     Linha (mk_datetime 2015 3 1) [70; 3]%float] =
  [mk_datetime 2015 2 15; mk_datetime 2015 3 1].
Proof.
  apply (visualizar_dados_linhas [reg_15_fev; reg_01_abr; reg_01_mar]
           1 2015 3 2015 4); [reflexivity | lia | reflexivity].
Defined.

(** ** Order of the keys *)

Lemma acrescentar_chave_In (chaves : list string) (k x : string) :
  In x (acrescentar_chave chaves k) <-> In x chaves \/ x = k.
Proof.
  unfold acrescentar_chave.
  destruct (existsb (String.eqb k) chaves) eqn:E.
  - apply existsb_exists in E as (y & Hy & Hk). apply String.eqb_eq in Hk.
    subst y. split; [tauto | intros [H | ->]; assumption].
  - rewrite in_app_iff. simpl. intuition congruence.
Qed.


Lemma acrescentar_chaves_In (l : list string) :
  forall (chaves : list string) (x : string),
    In x (fold_left acrescentar_chave l chaves) <-> In x chaves \/ In x l.
Proof.
  induction l as [|k l IH]; intros chaves x; simpl; [tauto|].
  rewrite IH, acrescentar_chave_In. intuition congruence.
Qed.


Lemma acrescentar_chave_NoDup (chaves : list string) (k : string) :
  NoDup chaves -> NoDup (acrescentar_chave chaves k).
Proof.
  intros Hnd. unfold acrescentar_chave.
  destruct (existsb (String.eqb k) chaves) eqn:E; [exact Hnd|].
  apply NoDup_app; [exact Hnd | repeat constructor; simpl; tauto |].
  intros x Hx [<-|[]].
  assert (Ht : existsb (String.eqb k) chaves = true)
    by (apply existsb_exists; exists k; split;
        [exact Hx | apply String.eqb_refl]).
  congruence.
Qed.

Lemma dict_mem_existsb {V : Type} (k : string) (d : dict V) :
  dict_mem k d = existsb (String.eqb k) (dict_keys d).
Proof.
  unfold dict_mem, dict_keys. induction d as [|[k1 v1] d IH]; simpl;
    [reflexivity|].
  destruct (String.eqb k k1); [reflexivity | exact IH].
Qed.

Section OrdemDasChaves.

Context {V : Type}.
Variable chave_de : registro -> string.
Variable cond : registro -> bool.
Variable v0 : V.
Variable f : V -> registro -> V.

(** The keys of a grouping stand in the order in which the selected
    records first show them. *)
Lemma agrupar_por_chaves (dados : list registro) :
  forall d : dict V,
    dict_keys (agrupar_por chave_de cond v0 f dados d) =
    fold_left acrescentar_chave (map chave_de (filter cond dados))
      (dict_keys d).
Proof.
  induction dados as [|r resto IH]; intros d; simpl; [reflexivity|].
  rewrite IH. destruct (cond r); [|reflexivity]. simpl.
  unfold dict_upsert. rewrite dict_keys_set, dict_mem_existsb. reflexivity.
Qed.

End OrdemDasChaves.

(** ** The month returned among equal totals *)









(** ** More on the monthly trend *)

Lemma media_temp_minima_mes_chaves (dados : list registro) (mes : Z)
    (medias : dict float) :
  1 <= mes <= 12 ->
  media_temp_minima_mes dados mes = Ok medias ->
  dict_keys medias =
  primeiras_ocorrencias (map chave_temp (filter (na_faixa mes) dados)).
Proof.
  intros Hmes H. rewrite media_temp_minima_mes_agrupada in H by exact Hmes.
  injection H as <-. rewrite dict_keys_map_valores.
  now rewrite agrupar_por_chaves.
Qed.

Lemma na_faixa_chave (mes : Z) (r : registro) :
  na_faixa mes r = true ->
  2006 <= year (data r) <= 2016 /\ month (data r) = mes /\
  chave_temp r = chave_do_ano mes (year (data r)).
Proof.
  unfold na_faixa. intros H.
  apply andb_true_iff in H as [H Hm]. apply andb_true_iff in H as [Hlo Hhi].
  apply Z.leb_le in Hlo, Hhi. apply Z.eqb_eq in Hm.
  repeat split; trivial. unfold chave_temp, chave_mes_ano, chave_do_ano.
  now rewrite Hm.
Qed.

Lemma primeiras_ocorrencias_In (l : list string) (k : string) :
  In k (primeiras_ocorrencias l) <-> In k l.
Proof.
  unfold primeiras_ocorrencias. rewrite acrescentar_chaves_In. simpl. tauto.
Qed.

Lemma primeiras_ocorrencias_NoDup (l : list string) :
  NoDup (primeiras_ocorrencias l).
Proof.
  unfold primeiras_ocorrencias.
  assert (H : forall ks, NoDup ks -> NoDup (fold_left acrescentar_chave l ks)).
  { induction l as [|k l IH]; intros ks Hks; simpl; [exact Hks|].
    apply IH. now apply acrescentar_chave_NoDup. }
  apply H. constructor.
Qed.

Lemma media_temp_minima_mes_mes_invalido_aux (dados : list registro) (mes : Z) :
  mes < 1 \/ 12 < mes -> media_temp_minima_mes dados mes = Ok [].
Proof.
  intros Hmes. unfold media_temp_minima_mes.
  destruct (Z.leb_spec 1 mes), (Z.leb_spec mes 12); simpl; trivial; lia.
Qed.

(** The function never raises, whatever the month and the collection:
    the key read on line 104 exists and no list of line 108 is empty.
    The dictionary has at most eleven entries, one for each year of the
    band. *)
Theorem media_temp_minima_mes_nunca_levanta :
  forall (dados : list registro) (mes : Z),
    exists medias,
      media_temp_minima_mes dados mes = Ok medias /\
      (List.length medias <= 11)%nat.
Proof.
  intros dados mes.
  destruct (Z.leb_spec 1 mes) as [H1|H1];
    [destruct (Z.leb_spec mes 12) as [H2|H2]|].
  - eexists. split; [apply media_temp_minima_mes_agrupada; lia|].
    rewrite length_map.
    set (g := agrupar_por chave_temp (na_faixa mes) [] junta_temp dados []).
    assert (Hnd : NoDup (dict_keys g))
      by (apply agrupar_por_NoDup; constructor).
    assert (Hincl : incl (dict_keys g) (map (chave_do_ano mes) anos_da_faixa)).
    { intros k Hk. unfold g in Hk.
      rewrite agrupar_por_chaves in Hk.
      apply (proj1 (primeiras_ocorrencias_In _ k)) in Hk.
      apply in_map_iff in Hk as (r & <- & Hr).
      apply filter_In in Hr as [_ Hr].
      apply na_faixa_chave in Hr as (Hy & _ & ->).
      apply in_map. unfold anos_da_faixa. simpl. lia. }
    apply NoDup_incl_length in Hincl; [|exact Hnd].
    unfold dict_keys in Hincl. rewrite !length_map in Hincl. exact Hincl.
  - exists []. split; [|simpl; lia].
    apply media_temp_minima_mes_mes_invalido_aux. lia.
  - exists []. split; [|simpl; lia].
    apply media_temp_minima_mes_mes_invalido_aux. lia.
Qed.

Lemma filter_filter {A : Type} (p : A -> bool) (l : list A) :
  filter p (filter p l) = filter p l.
Proof.
  induction l as [|a l IH]; simpl; [reflexivity|].
  destruct (p a) eqn:E; simpl; [rewrite E|]; now rewrite ?IH.
Qed.

(** Only the records of the month within 2006..2016 count: the result
    is the same on the whole collection and on those records alone. *)
Theorem media_temp_minima_mes_so_a_faixa :
  forall (dados : list registro) (mes : Z),
    media_temp_minima_mes dados mes =
    media_temp_minima_mes (filter (na_faixa mes) dados) mes.
Proof.
  intros dados mes.
  destruct (Z.leb_spec 1 mes) as [H1|H1];
    [destruct (Z.leb_spec mes 12) as [H2|H2]|].
  - rewrite !media_temp_minima_mes_agrupada by lia.
    now rewrite (agrupar_por_filter _ _ _ _ dados),
      (agrupar_por_filter _ _ _ _ (filter _ dados)), filter_filter.
  - now rewrite !media_temp_minima_mes_mes_invalido_aux by lia.
  - now rewrite !media_temp_minima_mes_mes_invalido_aux by lia.
Qed.

Lemma media_temp_minima_mes_chaves_ano (dados : list registro) (mes : Z)
    (medias : dict float) :
  1 <= mes <= 12 ->
  media_temp_minima_mes dados mes = Ok medias ->
  dict_keys medias =
  primeiras_ocorrencias
    (map (fun r => chave_do_ano mes (year (data r)))
         (filter (na_faixa mes) dados)).
Proof.
  intros Hmes H.
  rewrite (media_temp_minima_mes_chaves dados mes medias Hmes H).
  f_equal. apply map_ext_in. intros r Hr. apply filter_In in Hr as [_ Hr].
  now apply na_faixa_chave in Hr as (_ & _ & ->).
Qed.

(** For a month of 1..12 the entries stand in the order in which their
    years first appear in the collection, and the dictionary is empty
    exactly when no record of the month falls within 2006..2016: the
    caller cannot tell this from a refused month. *)
Theorem media_temp_minima_mes_ordem :
  forall (dados : list registro) (mes : Z) (medias : dict float),
    1 <= mes <= 12 ->
    media_temp_minima_mes dados mes = Ok medias ->
    dict_keys medias =
      primeiras_ocorrencias
        (map (fun r => chave_do_ano mes (year (data r)))
             (filter (na_faixa mes) dados)) /\
    (medias = [] <-> filter (na_faixa mes) dados = []).
Proof.
  intros dados mes medias Hmes H.
  pose proof (media_temp_minima_mes_chaves_ano dados mes medias Hmes H) as Hk.
  split; [exact Hk|]. split.
  - intros ->. simpl in Hk.
    destruct (filter (na_faixa mes) dados) as [|r rs]; [reflexivity|].
    exfalso.
    assert (Hin : In (chave_do_ano mes (year (data r)))
                     (primeiras_ocorrencias
                        (map (fun r0 => chave_do_ano mes (year (data r0)))
                             (r :: rs))))
      by (apply primeiras_ocorrencias_In; now left).
    rewrite <- Hk in Hin. exact Hin.
  - intros Hf. rewrite Hf in Hk. simpl in Hk.
    destruct medias; [reflexivity | discriminate].
Qed.

Lemma media_temp_minima_mes_ordem_witness :
  dict_keys [("January2007"%string, 12%float)] =
  primeiras_ocorrencias
    (map (fun r => chave_do_ano 1 (year (data r)))
         (filter (na_faixa 1) dados_jan_2007)).
Proof.
  apply (media_temp_minima_mes_ordem dados_jan_2007 1
           [("January2007"%string, 12%float)]); [lia | reflexivity].
Defined.

(** ** The labels of the chart *)

Lemma substring_tudo (b : string) : String.substring 0 (String.length b) b = b.
Proof. induction b as [|c b IH]; simpl; [reflexivity | now rewrite IH]. Qed.

Lemma string_length_append (a b : string) :
  String.length (a ++ b) = (String.length a + String.length b)%nat.
Proof. induction a as [|c a IH]; simpl; [reflexivity | now rewrite IH]. Qed.

Lemma ultimos_append (a b : string) :
  ultimos (String.length b) (a ++ b) = b.
Proof.
  unfold ultimos.
  replace (String.length (a ++ b) - String.length b)%nat
    with (String.length a)
    by (rewrite string_length_append; lia).
  induction a as [|c a IH]; simpl; [apply substring_tudo | exact IH].
Qed.

Lemma str_int_faixa_length (ano : Z) :
  2006 <= ano <= 2016 -> String.length (str_int ano) = 4%nat.
Proof.
  intros H.
  assert (Hc : In ano anos_da_faixa) by (unfold anos_da_faixa; simpl; lia).
  unfold anos_da_faixa in Hc. simpl in Hc.
  repeat (destruct Hc as [<-|Hc]; [reflexivity|]). contradiction.
Qed.

Lemma ultimos_chave_do_ano (mes ano : Z) :
  2006 <= ano <= 2016 -> ultimos 4 (chave_do_ano mes ano) = str_int ano.
Proof.
  intros H. unfold chave_do_ano.
  rewrite <- (str_int_faixa_length ano H). apply ultimos_append.
Qed.

(** Mapping an injective function over the keys commutes with keeping
    their first occurrences. *)
Lemma map_acrescentar_chaves (g : string -> string) (l : list string) :
  forall chaves : list string,
    (forall x y, In x (chaves ++ l) -> In y (chaves ++ l) ->
                 g x = g y -> x = y) ->
    map g (fold_left acrescentar_chave l chaves) =
    fold_left acrescentar_chave (map g l) (map g chaves).
Proof.
  induction l as [|k l IH]; intros chaves Hinj; simpl; [reflexivity|].
  assert (Hstep : map g (acrescentar_chave chaves k) =
                  acrescentar_chave (map g chaves) (g k)).
  { unfold acrescentar_chave.
    assert (He : existsb (String.eqb (g k)) (map g chaves) =
                 existsb (String.eqb k) chaves).
    { destruct (existsb (String.eqb k) chaves) eqn:E.
      - apply existsb_exists in E as (y & Hy & Hky).
        apply String.eqb_eq in Hky. subst y.
        apply existsb_exists. exists (g k). split;
          [now apply in_map | apply String.eqb_refl].
      - destruct (existsb (String.eqb (g k)) (map g chaves)) eqn:E2;
          [|reflexivity].
        apply existsb_exists in E2 as (z & Hz & Hkz).
        apply String.eqb_eq in Hkz. subst z.
        apply in_map_iff in Hz as (y & Hgy & Hy).
        assert (y = k).
        { apply Hinj; [apply in_or_app; now left
                      | apply in_or_app; right; now left | exact Hgy]. }
        subst y.
        assert (Ht : existsb (String.eqb k) chaves = true)
          by (apply existsb_exists; exists k; split;
              [exact Hy | apply String.eqb_refl]).
        congruence. }
    rewrite He. destruct (existsb (String.eqb k) chaves);
      [reflexivity | now rewrite map_app]. }
  rewrite <- Hstep. apply IH.
  intros x y Hx Hy. apply Hinj.
  - apply in_app_iff in Hx as [Hx|Hx].
    + apply acrescentar_chave_In in Hx as [Hx | ->];
        apply in_or_app; [now left | right; now left].
    + apply in_or_app. right. now right.
  - apply in_app_iff in Hy as [Hy|Hy].
    + apply acrescentar_chave_In in Hy as [Hy | ->];
        apply in_or_app; [now left | right; now left].
    + apply in_or_app. right. now right.
Qed.

(** The labels that [plotar_media_temp_minima] takes from the keys of a
    result of [media_temp_minima_mes] are the years of the records of
    the month within 2006..2016, written in decimal, each once, in the
    order in which they first appear; there are as many labels as bars. *)
Theorem plotar_media_temp_minima_rotulos :
  forall (dados : list registro) (mes : Z) (medias : dict float),
    1 <= mes <= 12 ->
    media_temp_minima_mes dados mes = Ok medias ->
    anos_do_grafico medias =
      primeiras_ocorrencias
        (map (fun r => str_int (year (data r)))
             (filter (na_faixa mes) dados)) /\
    NoDup (anos_do_grafico medias) /\
    List.length (anos_do_grafico medias) =
      List.length (temperaturas_do_grafico medias).
Proof.
  intros dados mes medias Hmes H.
  pose proof (media_temp_minima_mes_chaves_ano dados mes medias Hmes H) as Hk.
  assert (Hrot : anos_do_grafico medias =
                 primeiras_ocorrencias
                   (map (fun r => str_int (year (data r)))
                        (filter (na_faixa mes) dados))).
  { unfold anos_do_grafico. rewrite Hk. unfold primeiras_ocorrencias.
    rewrite map_acrescentar_chaves.
    - simpl. f_equal. rewrite map_map. apply map_ext_in.
      intros r Hr. apply filter_In in Hr as [_ Hr].
      apply na_faixa_chave in Hr as (Hy & _ & _).
      now apply ultimos_chave_do_ano.
    - simpl. intros x y Hx Hy Hxy.
      apply in_map_iff in Hx as (rx & <- & Hrx).
      apply in_map_iff in Hy as (ry & <- & Hry).
      apply filter_In in Hrx as [_ Hrx]. apply filter_In in Hry as [_ Hry].
      apply na_faixa_chave in Hrx as (Hyx & _ & _).
      apply na_faixa_chave in Hry as (Hyy & _ & _).
      rewrite !ultimos_chave_do_ano in Hxy by assumption.
      apply str_int_inj in Hxy. now rewrite Hxy. }
  split; [exact Hrot|]. split.
  - rewrite Hrot. apply primeiras_ocorrencias_NoDup.
  - unfold anos_do_grafico, temperaturas_do_grafico, dict_keys, dict_values.
    now rewrite !length_map.
Qed.

Lemma plotar_media_temp_minima_rotulos_witness :
  anos_do_grafico [("January2007"%string, 12%float)] = ["2007"%string].
Proof.
  destruct (plotar_media_temp_minima_rotulos dados_jan_2007 1
              [("January2007"%string, 12%float)]) as [-> _];
    [lia | reflexivity | reflexivity].
Defined.

(** ** The session *)

Lemma media_temp_minima_mes_ok (dados : list registro) (mes : Z) :
  exists medias,
    media_temp_minima_mes dados mes = Ok medias /\
    (medias <> [] -> 1 <= mes <= 12).
Proof.
  destruct (Z.leb_spec 1 mes) as [H1|H1];
    [destruct (Z.leb_spec mes 12) as [H2|H2]|].
  - eexists. split; [apply media_temp_minima_mes_agrupada; lia | lia].
  - exists []. split; [apply media_temp_minima_mes_mes_invalido_aux; lia
                      | congruence].
  - exists []. split; [apply media_temp_minima_mes_mes_invalido_aux; lia
                      | congruence].
Qed.

Lemma visualizar_dados_ok (dados : list registro)
    (mes_inicio ano_inicio mes_fim ano_fim tipo : Z) :
  exists saidas,
    visualizar_dados dados mes_inicio ano_inicio mes_fim ano_fim tipo
    = Ok saidas.
Proof.
  destruct (validar_intervalo_datas dados mes_inicio ano_inicio mes_fim ano_fim)
    eqn:Hv.
  - rewrite (visualizar_dados_valido _ _ _ _ _ tipo Hv). eauto.
  - unfold visualizar_dados. rewrite Hv. simpl. eauto.
Qed.

(** A property of sessions that holds at the ends of the loop and is
    kept by printing holds of every run of the loop. *)
Section Sessoes.

Variable int_of_str : string -> result Z.
Variable P : sessao -> Prop.

Hypothesis P_prefixar :
  forall eventos s,
    Forall grafico_bem_formado eventos -> P s -> P (prefixar eventos s).
Hypothesis P_fim_da_entrada : P ([], FimDaEntrada).
Hypothesis P_encerrado : P ([ProgramaEncerrado], Retornou).
Hypothesis P_int :
  forall s e, int_of_str s = Raise e -> e = ValueError \/ P ([], Excecao e).

Lemma P_perguntar (p : pergunta) (entrada : list string)
    (k : string -> list string -> sessao) :
  (forall s resto, entrada = s :: resto -> P (k s resto)) ->
  P (perguntar p entrada k).
Proof.
  intros Hk. unfold perguntar. apply P_prefixar; [repeat constructor|].
  destruct entrada as [|s resto]; [exact P_fim_da_entrada | now apply Hk].
Qed.

Lemma P_tratar (s : string) (e : excecao) (mensagem : evento)
    (continua : sessao) :
  int_of_str s = Raise e ->
  grafico_bem_formado mensagem -> P continua ->
  P (tratar e mensagem continua).
Proof.
  intros He Hm Hc.
  destruct (P_int s e He) as [-> | HP].
  - simpl. apply P_prefixar; [now repeat constructor | exact Hc].
  - destruct e; simpl; trivial.
    apply P_prefixar; [now repeat constructor | exact Hc].
Qed.

Lemma P_exibir_periodo (dados : list registro)
    (mes_inicio ano_inicio mes_fim ano_fim tipo : Z) (continua : sessao) :
  P continua ->
  P (exibir_periodo dados mes_inicio ano_inicio mes_fim ano_fim tipo continua).
Proof.
  intros Hc. unfold exibir_periodo.
  destruct ((1 <=? tipo) && (tipo <=? 4)).
  - destruct (visualizar_dados_ok dados mes_inicio ano_inicio mes_fim ano_fim
                tipo) as [saidas ->].
    apply P_prefixar; [|exact Hc].
    apply Forall_forall. intros ev Hev.
    apply in_map_iff in Hev as (s & <- & _). exact I.
  - apply P_prefixar; [repeat constructor | exact Hc].
Qed.

Lemma P_relatorio_chuva (dados : list registro) (continua : sessao) :
  dados <> [] -> P continua -> P (relatorio_chuva dados continua).
Proof.
  intros Hne Hc. unfold relatorio_chuva.
  destruct (mes_mais_chuvoso_nao_vazio dados Hne) as (mes & total & -> & _).
  apply P_prefixar; [repeat constructor | exact Hc].
Qed.

Lemma P_relatorio_medias (dados : list registro) (mes : Z)
    (continua : sessao) :
  P continua -> P (relatorio_medias dados mes continua).
Proof.
  intros Hc. unfold relatorio_medias.
  destruct (media_temp_minima_mes_ok dados mes) as (medias & -> & Hmes).
  destruct medias as [|m ms].
  - apply P_prefixar; [repeat constructor | exact Hc].
  - apply P_prefixar.
    + constructor; [exact I|]. apply Forall_forall. intros ev Hev.
      apply in_map_iff in Hev as (kv & <- & _). exact I.
    + simpl py_div_len. apply P_prefixar; [|exact Hc].
      repeat constructor; simpl.
      * apply Hmes. discriminate.
      * apply Hmes. discriminate.
      * discriminate.
      * unfold temperaturas_do_grafico, dict_values, dict_keys.
        now rewrite !length_map.
Qed.

Lemma P_laco_principal (dados : list registro) :
  dados <> [] -> forall entrada, P (laco_principal int_of_str dados entrada).
Proof.
  intros Hne.
  assert (H : forall n entrada,
             (List.length entrada <= n)%nat ->
             P (laco_principal int_of_str dados entrada)).
  { induction n as [|n IH]; intros entrada Hlen.
    - destruct entrada; [|simpl in Hlen; lia].
      simpl. apply P_prefixar; [repeat constructor|].
      now apply P_perguntar.
    - destruct entrada as [|opcao e1]; simpl in *;
        (apply P_prefixar; [repeat constructor|]);
        (apply P_perguntar; intros ? ? [= <- <-]).
      repeat
        match goal with
        | |- P (if ?b then _ else _) => destruct b
        | |- P (prefixar _ _) => apply P_prefixar; [repeat constructor|]
        | |- P (perguntar _ _ _) => apply P_perguntar; intros ? ? ->
        | |- P (match int_of_str ?s with _ => _ end) =>
            destruct (int_of_str s) eqn:?
        | |- P (tratar _ _ _) => eapply P_tratar; [eassumption | exact I |]
        | |- P (exibir_periodo _ _ _ _ _ _ _) => apply P_exibir_periodo
        | |- P (relatorio_chuva _ _) => apply P_relatorio_chuva; [exact Hne|]
        | |- P (relatorio_medias _ _ _) => apply P_relatorio_medias
        | |- P (laco_principal _ _ _) => apply IH; simpl in *; lia
        | |- P ([ProgramaEncerrado], Retornou) => exact P_encerrado
        end. }
  intros entrada. now apply (H (List.length entrada)).
Qed.

End Sessoes.

Section PrincipalProps.

Variable strptime : string -> result datetime.
Variable float_of_str : string -> result float.
Variable int_of_str : string -> result Z.

Local Abbreviation principal := (main strptime float_of_str int_of_str).


(** No exception of the program's own functions leaves [main], as long
    as [int] raises nothing but [ValueError]: the wettest month is asked
    only of a collection that is not empty, the display builds its dates
    after the validation, and the overall mean divides by a length that
    is not zero.  The session returns or stops at the end of the input. *)
Theorem main_sem_excecao :
  (forall s e, int_of_str s = Raise e -> e = ValueError) ->
  forall (arq : arquivo) (entrada : list string),
    sem_excecao (principal arq entrada).
Proof.
  intros Hint arq entrada. unfold main.
  destruct (carregar_dados strptime float_of_str arq) as [|r dados] eqn:Hd.
  - intros e. unfold prefixar. simpl. discriminate.
  - intros e. unfold prefixar at 1. cbn [snd].
    apply (P_laco_principal int_of_str sem_excecao); try discriminate.
    + intros eventos s _ Hs e'. simpl. apply Hs.
    + intros s e' He'. left. now apply (Hint s).
Qed.

(** Every chart that a session draws is for a month of 1..12 and has at
    least one bar and one label for each bar: the chart is reached only
    through a result of [media_temp_minima_mes] that is not empty. *)
Theorem main_graficos :
  forall (arq : arquivo) (entrada : list string),
    Forall grafico_bem_formado (fst (principal arq entrada)).
Proof.
  intros arq entrada. unfold main.
  assert (Hm : Forall grafico_bem_formado
                 (mensagem_carga strptime float_of_str arq)).
  { unfold mensagem_carga.
    destruct (ler_arquivo strptime float_of_str arq) as [d|e];
      [constructor | destruct e; repeat constructor]. }
  simpl. apply Forall_app. split; [exact Hm|].
  destruct (carregar_dados strptime float_of_str arq) as [|r dados] eqn:Hd;
    [constructor|].
  apply (P_laco_principal int_of_str
           (fun s => Forall grafico_bem_formado (fst s))); try discriminate.
  - intros eventos s He Hs. simpl. apply Forall_app. now split.
  - constructor.
  - repeat constructor.
  - intros s e _. right. constructor.
Qed.

(** A session with records returns only through option 4: when [main]
    returns, the last thing printed is the farewell of line 186. *)
Theorem main_encerra_pela_opcao_4 :
  forall (arq : arquivo) (entrada : list string),
    carregar_dados strptime float_of_str arq <> [] ->
    encerra_pela_opcao_4 (principal arq entrada).
Proof.
  intros arq entrada Hd. unfold main.
  destruct (carregar_dados strptime float_of_str arq) as [|r dados] eqn:Hc;
    [congruence|].
  assert (H : encerra_pela_opcao_4
                (laco_principal int_of_str (r :: dados) entrada)).
  { apply (P_laco_principal int_of_str encerra_pela_opcao_4);
      try discriminate.
    - intros eventos s _ Hs Hret. simpl in *.
      destruct (Hs Hret) as [evs ->]. exists (eventos ++ evs).
      now rewrite app_assoc.
    - intros _. now exists [].
    - intros s e _. right. intros Hret. discriminate. }
  intros Hret. simpl in *. destruct (H Hret) as [evs ->].
  exists (mensagem_carga strptime float_of_str arq ++ evs).
  now rewrite app_assoc.
Qed.

End PrincipalProps.

Lemma int_decimal_so_ValueError (s : string) (e : excecao) :
  int_decimal s = Raise e -> e = ValueError.
Proof.
  unfold int_decimal.
  destruct (match list_ascii_of_string s with
            | [] => (false, list_ascii_of_string s)
            | c :: rest =>
                if Ascii.eqb c "-"%char then (true, rest)
                else if Ascii.eqb c "+"%char then (false, rest)
                else (false, list_ascii_of_string s)
            end) as [neg cs].
  destruct (read_digits cs 0 0) as [[v n] resto].
  destruct resto, n; intros H; try discriminate; now injection H.
Qed.

(** The sample session, run. *)
Example sessao_exemplo :
  main strptime_dmY float_decimal int_decimal arquivo_de_uma_linha
    entrada_exemplo =
  ([MenuPrincipal; Pergunta PerguntaOpcao;
    Pergunta PerguntaMesInicial; Pergunta PerguntaAnoInicial;
    Pergunta PerguntaMesFinal; Pergunta PerguntaAnoFinal;
    MenuVisualizacao; Pergunta PerguntaTipo;
    Impresso TituloPeriodo;
    Impresso (Cabecalho ["Data"; "Precipitação"; "Temp. Máx"; "Temp. Mín";
                         "Umidade"; "Vento"]%string);
    Impresso (Regua 70);
    MenuPrincipal; Pergunta PerguntaOpcao;
    MesMaisChuvoso "February/2015" 1.5;
    MenuPrincipal; Pergunta PerguntaOpcao; Pergunta PerguntaMes;
    NumeroInvalido;
    MenuPrincipal; Pergunta PerguntaOpcao; Pergunta PerguntaMes;
    MesInvalidoOuSemDados;
    MenuPrincipal; Pergunta PerguntaOpcao; OpcaoInvalida;
    MenuPrincipal; Pergunta PerguntaOpcao; ProgramaEncerrado],
   Retornou).
Proof. reflexivity. Qed.


Lemma main_sem_excecao_witness :
  sem_excecao
    (main strptime_dmY float_decimal int_decimal arquivo_de_uma_linha
       ["3"; "1"; "2"]%string).
Proof.
  apply (main_sem_excecao strptime_dmY float_decimal int_decimal
           int_decimal_so_ValueError).
Defined.

Lemma main_encerra_pela_opcao_4_witness :
  encerra_pela_opcao_4
    (main strptime_dmY float_decimal int_decimal arquivo_de_uma_linha
       entrada_exemplo).
Proof.
  apply (main_encerra_pela_opcao_4 strptime_dmY float_decimal int_decimal).
  discriminate.
Defined.
